(** * The ICNS packer of [scripts/make_icns.py]

    A shallow embedding of [create_icns] and of the script's entry point,
    over an explicit model of the file system, of standard output and of
    the system calls the script issues, followed by the properties of the
    container it writes. *)

From Stdlib Require Import ZArith List Lia.
From Stdlib Require Import Strings.String Strings.Ascii Strings.Byte.
From stdpp Require Import base gmap strings list.

Local Open Scope string_scope.
Local Open Scope list_scope.
Local Open Scope Z_scope.

(** ** Bytes objects *)

(** A Python [bytes] object is a list of bytes; [len] returns an
    unbounded integer. *)
Abbreviation bytes := (list byte).

#[global] Instance byte_eq_decision : EqDecision byte := Byte.byte_eq_dec.

Definition len {A} (l : list A) : Z := Z.of_nat (length l).

(** The literal [b'...'] for an ASCII text. *)
Definition b (s : string) : bytes := list_byte_of_string s.

(** [tag.decode()] on an ASCII tag. *)
Definition decode (t : bytes) : string := string_of_list_byte t.

Definition byte_val (x : byte) : Z := Z.of_N (Byte.to_N x).

Definition to_byte (z : Z) : byte :=
  match Byte.of_N (Z.to_N (Z.land z 255)) with
  | Some x => x
  | None => x00
  end.

(** ** Exceptions and the state the script runs in *)

Inductive exn : Type :=
| StructError
| IsADirectoryError (path : string)
| FileNotFoundError (path : string)
| SystemExit (code : Z).

(** A path names a regular file with its content, or a directory. *)
Inductive node : Type :=
| File (content : bytes)
| Dir.

(** The system calls the script issues, in the order it issues them. *)
Inductive syscall : Type :=
| SysStat (path : string)
| SysReadAll (path : string)
| SysOpenTrunc (path : string)
| SysWrite (path : string) (data : bytes).

Record world : Type := World {
  fs : gmap string node;
  stdout : list string;
  calls : list syscall
}.

(** A computation threads the world and either raises or returns; the
    world reached when an exception is raised is kept. *)
Definition M (A : Type) : Type := world -> world * (exn + A).

Definition ret {A} (a : A) : M A := fun w => (w, inr a).

Definition raise {A} (e : exn) : M A := fun w => (w, inl e).

Definition bind {A B} (m : M A) (k : A -> M B) : M B :=
  fun w => match m w with
           | (w', inr a) => k a w'
           | (w', inl e) => (w', inl e)
           end.

Notation "x <- m ;; k" := (bind m (fun x => k))
  (at level 100, m at next level, right associativity).
Notation "m ;;; k" := (bind m (fun _ => k))
  (at level 100, right associativity).

(** [for x in l: s = body(s, x)]. *)
Fixpoint for_each {A S} (l : list A) (body : S -> A -> M S) (s : S) : M S :=
  match l with
  | [] => ret s
  | x :: l' => s' <- body s x ;; for_each l' body s'
  end.

Definition log (c : syscall) (w : world) : world :=
  World (fs w) (stdout w) (calls w ++ [c]).

(** ** Library functions *)

(** [struct.pack('>I', n)]: four bytes, most significant first;
    [struct.error] when [n] is not an unsigned 32-bit value. *)
Definition pack_I (n : Z) : option bytes :=
  if (0 <=? n) && (n <? 2 ^ 32)
  then Some [ to_byte (Z.shiftr n 24); to_byte (Z.shiftr n 16);
              to_byte (Z.shiftr n 8); to_byte n ]
  else None.

Definition struct_pack_I (n : Z) : M bytes :=
  match pack_I n with
  | Some packed => ret packed
  | None => raise StructError
  end.

Definition starts_with_sep (s : string) : bool :=
  match s with
  | String c _ => if Ascii.eqb c "/" then true else false
  | EmptyString => false
  end.

Fixpoint ends_with_sep (s : string) : bool :=
  match s with
  | EmptyString => false
  | String c EmptyString => Ascii.eqb c "/"
  | String _ s' => ends_with_sep s'
  end.

(** [os.path.join(a, p)] of [posixpath]. *)
Definition os_path_join (a p : string) : string :=
  if starts_with_sep p then p
  else if String.eqb a EmptyString || ends_with_sep a then a +:+ p
  else a +:+ "/" +:+ p.

(** [os.path.exists(path)]. *)
Definition os_path_exists (path : string) : M bool :=
  fun w => (log (SysStat path) w, inr (bool_decide (is_Some (fs w !! path)))).

(** [with open(path, 'rb') as f: f.read()]. *)
Definition read_binary (path : string) : M bytes :=
  fun w => match fs w !! path with
           | Some (File content) => (log (SysReadAll path) w, inr content)
           | Some Dir => (log (SysReadAll path) w, inl (IsADirectoryError path))
           | None => (log (SysReadAll path) w, inl (FileNotFoundError path))
           end.

(** [open(path, 'wb')]: the file is created, or truncated when it exists;
    the directory the path lies in is taken to exist. *)
Definition open_wb (path : string) : M unit :=
  fun w => match fs w !! path with
           | Some Dir =>
               (log (SysOpenTrunc path) w, inl (IsADirectoryError path))
           | _ => (World (<[path := File []]> (fs w)) (stdout w)
                         (calls w ++ [SysOpenTrunc path]), inr tt)
           end.

(** [f.write(data)] on the file opened at [path]. *)
Definition f_write (path : string) (data : bytes) : M unit :=
  fun w => match fs w !! path with
           | Some (File content) =>
               (World (<[path := File (content ++ data)]> (fs w)) (stdout w)
                      (calls w ++ [SysWrite path data]), inr tt)
           | _ => (log (SysWrite path data) w, inr tt)
           end.

Definition print (line : string) : M unit :=
  fun w => (World (fs w) (stdout w ++ [line]) (calls w), inr tt).

Definition sys_exit {A} (code : Z) : M A := raise (SystemExit code).

(** [sum(len(b) for b in data_blocks)]. *)
Definition sum_len (data_blocks : list bytes) : Z :=
  fold_left (fun acc blk => acc + len blk) data_blocks 0.

(** ** The script *)

(** The [types] dictionary; a Python dict iterates in insertion order. *)
Definition types : list (bytes * string) :=
  [ (b "icp4", "icon_16x16.png");
    (b "icp5", "icon_32x32.png");
    (b "icp6", "icon_64x64.png");
    (b "ic07", "icon_128x128.png");
    (b "ic08", "icon_256x256.png");
    (b "ic09", "icon_512x512.png");
    (b "ic10", "icon_1024x1024.png");
    (b "ic11", "icon_16x16@2x.png");
    (b "ic12", "icon_32x32@2x.png");
    (b "ic13", "icon_128x128@2x.png");
    (b "ic14", "icon_256x256@2x.png") ].

Definition bytes_eqb (x y : bytes) : bool := bool_decide (x = y).

(** The path left in [path] by the [if not os.path.exists(path)] block. *)
Definition variant_path (iconset_dir : string) (tag : bytes) (path : string)
  : string :=
  let path := if bytes_eqb tag (b "icp4")
              then os_path_join iconset_dir "icon_16x16.png" else path in
  let path := if bytes_eqb tag (b "icp5")
              then os_path_join iconset_dir "icon_32x32.png" else path in
  path.

(** The three statements under [with open(path, 'rb') as f], once
    [img_data] is read: the block appended to [data_blocks]. *)
Definition make_block (tag img_data : bytes) : M bytes :=
  let block_size := len img_data + 8 in
  packed <- struct_pack_I block_size ;;
  ret (tag ++ packed ++ img_data).

(** One iteration of the loop over [types.items()]. *)
Definition loop_body (iconset_dir : string) (data_blocks : list bytes)
  (item : bytes * string) : M (list bytes) :=
  let '(tag, filename) := item in
  let path := os_path_join iconset_dir filename in
  found <- os_path_exists path ;;
  let path := if negb found then variant_path iconset_dir tag path else path in
  found <- os_path_exists path ;;
  if found then
    img_data <- read_binary path ;;
    block <- make_block tag img_data ;;
    ret (data_blocks ++ [block])
  else
    print ("Warning: " +:+ filename +:+ " not found, skipping "
             +:+ decode tag) ;;;
    ret data_blocks.

Definition collect_blocks (iconset_dir : string) : M (list bytes) :=
  for_each types (loop_body iconset_dir) [].

Definition write_blocks (output_file : string) (data_blocks : list bytes)
  : M unit :=
  for_each data_blocks (fun _ block => f_write output_file block) tt.

(** From [total_size = ...] to the end of the [with open(output_file, 'wb')]
    block. *)
Definition write_container (output_file : string) (data_blocks : list bytes)
  : M unit :=
  let total_size := sum_len data_blocks + 8 in
  open_wb output_file ;;;
  packed <- struct_pack_I total_size ;;
  f_write output_file (b "icns" ++ packed) ;;;
  write_blocks output_file data_blocks.

Definition create_icns (iconset_dir output_file : string) : M unit :=
  data_blocks <- collect_blocks iconset_dir ;;
  (if bool_decide (data_blocks = [])
   then print "Error: No icons found to pack!" ;;; sys_exit 1
   else ret tt) ;;;
  write_container output_file data_blocks ;;;
  print ("Successfully created " +:+ output_file).

(** The [__main__] block, on [sys.argv]. *)
Definition main (argv : list string) : M unit :=
  match argv with
  | _ :: iconset_dir :: output_file :: _ => create_icns iconset_dir output_file
  | _ =>
      print "Usage: python3 make_icns.py <iconset_dir> <output_file>" ;;;
      sys_exit 1
  end.

(** The status the interpreter exits with. *)
Definition exit_code (r : exn + unit) : Z :=
  match r with
  | inr _ => 0
  | inl (SystemExit code) => code
  | inl _ => 1
  end.

Definition init (files : gmap string node) : world := World files [] [].

(** ** Reading a container back *)

(** The value of a big-endian byte string, as [int.from_bytes(_, 'big')]. *)
Definition be_value (field : bytes) : Z :=
  fold_left (fun acc x => acc * 256 + byte_val x) field 0.

(** The three parts of a block. *)
Definition block_tag (block : bytes) : bytes := take 4 block.
Definition block_length (block : bytes) : Z := be_value (take 4 (drop 4 block)).
Definition block_payload (block : bytes) : bytes := drop 8 block.

(** The length field of a container's header. *)
Definition header_total (container : bytes) : Z :=
  be_value (take 4 (drop 4 container)).

Inductive reader_error : Type :=
| BadMagicError
| TruncatedError
| MalformedBlockError
| DuplicateTagError
| SizeMismatchError.

(** Modelled from the spec: the block state of the Container Reader, which
    the repository does not implement. [consumed] counts the bytes read so
    far, the header included; every round consumes at least eight bytes, so
    the length of the stream is fuel enough. *)
Fixpoint read_blocks (fuel : nat) (total consumed : Z) (rest : bytes)
  (acc : list (bytes * bytes)) : reader_error + list (bytes * bytes) :=
  if consumed =? total then
    match rest with
    | [] => inr acc
    | _ :: _ => inl SizeMismatchError
    end
  else if (total <? consumed) || bool_decide (rest = []) then
    inl SizeMismatchError
  else
    match fuel with
    | O => inl MalformedBlockError
    | S fuel' =>
        if len rest <? 8 then inl MalformedBlockError
        else
          let tag := take 4 rest in
          let length := be_value (take 4 (drop 4 rest)) in
          if (length <? 8) || (len rest <? length) then inl MalformedBlockError
          else if bool_decide (tag ∈ map fst acc) then inl DuplicateTagError
          else
            let payload := take (Z.to_nat (length - 8)) (drop 8 rest) in
            read_blocks fuel' total (consumed + length)
              (drop (Z.to_nat length) rest) (acc ++ [(tag, payload)])
    end.

(** Modelled from the spec: the Container Reader, header state first. *)
Definition read_container (stream : bytes)
  : reader_error + list (bytes * bytes) :=
  if negb (bool_decide (take 4 stream = b "icns")) then inl BadMagicError
  else if len stream <? 8 then inl TruncatedError
  else
    let total := header_total stream in
    if len stream <? total then inl TruncatedError
    else read_blocks (length stream) total 8 (drop 8 stream) [].

(** The encoding and the writing of the script, applied to given
    (tag, payload) pairs in place of the files of a directory: the loop
    appends [make_block] of each pair, then the container is written. *)
Definition encode_entry (data_blocks : list bytes) (entry : bytes * bytes)
  : M (list bytes) :=
  block <- make_block (fst entry) (snd entry) ;;
  ret (data_blocks ++ [block]).

Definition pack_entries (entries : list (bytes * bytes)) (output_file : string)
  : M unit :=
  data_blocks <- for_each entries encode_entry [] ;;
  write_container output_file data_blocks.

(** The file a run leaves at [path]. *)
Definition file_at (path : string) (w : world) : option bytes :=
  match fs w !! path with
  | Some (File content) => Some content
  | _ => None
  end.

(** ** The vocabulary of the statements *)

Definition warning (item : bytes * string) : string :=
  "Warning: " +:+ snd item +:+ " not found, skipping " +:+ decode (fst item).

(** The path an iteration ends up reading. *)
Definition resolved_path (files : gmap string node) (iconset_dir : string)
  (item : bytes * string) : string :=
  let path := os_path_join iconset_dir (snd item) in
  if negb (bool_decide (is_Some (files !! path)))
  then variant_path iconset_dir (fst item) path else path.

(** A call that leaves the file system as it is. *)
Definition read_only (c : syscall) : bool :=
  match c with
  | SysStat _ | SysReadAll _ => true
  | SysOpenTrunc _ | SysWrite _ _ => false
  end.

(** [w'] extends [w] by read-only calls and leaves its files alone. *)
Definition only_read (w w' : world) : Prop :=
  fs w' = fs w /\
  exists cs, calls w' = calls w ++ cs /\ forallb read_only cs = true.

(** What the file of an entry of [types] contributes. *)
Definition found_in (files : gmap string node) (iconset_dir : string)
  (item : bytes * string) : bool :=
  bool_decide (is_Some (files !! os_path_join iconset_dir (snd item))).

Definition block_of (files : gmap string node) (iconset_dir : string)
  (item : bytes * string) : option bytes :=
  match files !! os_path_join iconset_dir (snd item) with
  | Some (File img_data) =>
      match pack_I (len img_data + 8) with
      | Some packed => Some (fst item ++ packed ++ img_data)
      | None => None
      end
  | _ => None
  end.

(** The file system after a sequence of calls, starting from [files]. *)
Definition apply_call (files : gmap string node) (c : syscall)
  : gmap string node :=
  match c with
  | SysOpenTrunc path =>
      match files !! path with
      | Some Dir => files
      | _ => <[path := File []]> files
      end
  | SysWrite path data =>
      match files !! path with
      | Some (File content) => <[path := File (content ++ data)]> files
      | _ => files
      end
  | SysStat _ | SysReadAll _ => files
  end.

Definition replay (cs : list syscall) (files : gmap string node)
  : gmap string node := fold_left apply_call cs files.

Definition no_icons : string := "Error: No icons found to pack!".

Definition success (output_file : string) : string :=
  "Successfully created " +:+ output_file.

(** The sum of the length fields of a list of blocks. *)
Definition sum_block_lengths (data_blocks : list bytes) : Z :=
  foldr (fun block acc => block_length block + acc) 0 data_blocks.


Definition probes (iconset_dir : string) (item : bytes * string)
  : list syscall :=
  [ SysStat (os_path_join iconset_dir (snd item));
    SysStat (os_path_join iconset_dir (snd item)) ].

(** Nothing exists below [iconset_dir]: the directory is missing, or
    cannot be searched, so that every relative name joined to it fails to
    resolve. *)
Definition nothing_under (files : gmap string node) (iconset_dir : string)
  : Prop :=
  forall name,
    starts_with_sep name = false ->
    files !! os_path_join iconset_dir name = None.


(** The loop of a resolver with no fallback logic at all: [loop_body]
    with the [if not os.path.exists(path)] block taken out. *)
Definition loop_body_plain (iconset_dir : string) (data_blocks : list bytes)
  (item : bytes * string) : M (list bytes) :=
  let '(tag, filename) := item in
  let path := os_path_join iconset_dir filename in
  found <- os_path_exists path ;;
  if found then
    img_data <- read_binary path ;;
    block <- make_block tag img_data ;;
    ret (data_blocks ++ [block])
  else
    print ("Warning: " +:+ filename +:+ " not found, skipping "
             +:+ decode tag) ;;;
    ret data_blocks.

Definition collect_blocks_plain (iconset_dir : string) : M (list bytes) :=
  for_each types (loop_body_plain iconset_dir) [].

Definition create_icns_plain (iconset_dir output_file : string) : M unit :=
  data_blocks <- collect_blocks_plain iconset_dir ;;
  (if bool_decide (data_blocks = [])
   then print "Error: No icons found to pack!" ;;; sys_exit 1
   else ret tt) ;;;
  write_container output_file data_blocks ;;;
  print ("Successfully created " +:+ output_file).

(** What a run shows: the files, the output, the result, and the calls
    other than [stat]. *)
Definition is_stat (c : syscall) : bool :=
  match c with
  | SysStat _ => true
  | _ => false
  end.

Definition observed {A} (run : world * (exn + A))
  : gmap string node * list string * list syscall * (exn + A) :=
  (fs (fst run), stdout (fst run),
   filter (fun c => negb (is_stat c)) (calls (fst run)), snd run).

(** Two worlds that differ in their [stat] calls only. *)
Definition same_but_stats (w1 w2 : world) : Prop :=
  fs w1 = fs w2 /\ stdout w1 = stdout w2 /\
  filter (fun c => negb (is_stat c)) (calls w1)
  = filter (fun c => negb (is_stat c)) (calls w2).



(** The bytes a container of these entries takes: the header and, for
    each entry, the tag, the length field and the payload. *)
Definition container_size (entries : list (bytes * bytes)) : Z :=
  8 + foldr (fun entry acc => len (snd entry) + 8 + acc) 0 entries.

(** [block] is what [make_block] returns for [entry]. *)
Definition encodes (entry : bytes * bytes) (block : bytes) : Prop :=
  exists packed,
    pack_I (len (snd entry) + 8) = Some packed /\
    block = fst entry ++ packed ++ snd entry.

(** ** Directories and entries the statements are tried on *)

Definition ten : bytes := b "0123456789".

(** A directory holding a 10-byte [icon_16x16.png] and nothing else. *)
Definition one_icon : gmap string node :=
  {[ "icons/icon_16x16.png" := File ten ]}.

(** An empty directory [icons] next to an output file of an earlier run. *)
Definition earlier_output : gmap string node :=
  {[ "icons" := Dir; "out.icns" := File (b "previous") ]}.



Definition two_entries : list (bytes * bytes) :=
  [ (b "icp4", ten); (b "ic07", b "xyz") ].

(** ** The vocabulary of the further properties *)

Definition usage : string :=
  "Usage: python3 make_icns.py <iconset_dir> <output_file>".

(** The eleven paths a run looks at. *)
Definition table_paths (iconset_dir : string) : list string :=
  map (fun item => os_path_join iconset_dir (snd item)) types.

(** A call the script may issue: a [stat] or a read of one of the table
    paths, or the creation or a write of the output path. *)
Definition call_in_bounds (iconset_dir output_file : string) (c : syscall)
  : Prop :=
  match c with
  | SysStat path | SysReadAll path => In path (table_paths iconset_dir)
  | SysOpenTrunc path | SysWrite path _ => path = output_file
  end.

(** The (tag, content) pair of a table entry whose path is a regular
    file, and the pairs of all of them, in table order. *)
Definition entry_of (files : gmap string node) (iconset_dir : string)
  (item : bytes * string) : option (bytes * bytes) :=
  match files !! os_path_join iconset_dir (snd item) with
  | Some (File img_data) => Some (fst item, img_data)
  | _ => None
  end.

Definition icon_entries (files : gmap string node) (iconset_dir : string)
  : list (bytes * bytes) :=
  omap (entry_of files iconset_dir) types.

(** No table path is a directory. *)
Definition no_directory_icon (files : gmap string node)
  (iconset_dir : string) : Prop :=
  forall item, In item types ->
    files !! os_path_join iconset_dir (snd item) <> Some Dir.


(** A payload of 2^32 - 8 bytes, the smallest that no block can hold. *)
Definition oversize : bytes := repeat x00 (Z.to_nat 4294967288).

(** A payload of 2^31 bytes: one fits a block, two do not fit a
    container. *)
Definition half : bytes := repeat x00 (Z.to_nat 2147483648).

(** Two icons of 2^31 bytes next to the output file of an earlier run. *)
Definition two_halves : gmap string node :=
  {[ "icons/icon_16x16.png" := File half;
     "icons/icon_32x32.png" := File half;
     "out.icns" := File (b "previous") ]}.

(** A directory [icons] with a directory where an icon should be. *)
Definition directory_icon : gmap string node :=
  {[ "icons/icon_16x16.png" := File ten;
     "icons/icon_64x64.png" := Dir;
     "out.icns" := File (b "previous") ]}.

(** The 10-byte icon, and a directory at the output path. *)
Definition directory_output : gmap string node :=
  {[ "icons/icon_16x16.png" := File ten; "out.icns" := Dir ]}.

(** ** Finding the browser, in [scripts/build_pdf.py] *)

(** The tuple [find_chromium] iterates over. *)
Definition chromium_candidates : list string :=
  [ "chromium"; "chromium-browser"; "google-chrome"; "google-chrome-stable" ].

(** [if path:] on what [shutil.which] returned: [None] and the empty
    string are false. *)
Definition truthy (path : option string) : bool :=
  match path with
  | Some s => negb (String.eqb s EmptyString)
  | None => false
  end.

(** The [for] loop of [find_chromium] over the candidates left, with
    [shutil.which] as the function [which] of the environment: the path
    returned, if the loop returns. *)
Fixpoint first_found (which : string -> option string)
  (candidates : list string) : option string :=
  match candidates with
  | [] => None
  | candidate :: rest =>
      let path := which candidate in
      if truthy path then path else first_found which rest
  end.

Inductive runtime_error : Type :=
| RuntimeError (message : string).

Definition find_chromium (which : string -> option string)
  : runtime_error + string :=
  match first_found which chromium_candidates with
  | Some path => inr path
  | None =>
      inl (RuntimeError
             "No Chromium/Chrome binary found. Install chromium or google-chrome.")
  end.

(** * Properties *)

(** ** Big-endian fields *)

Lemma byte_val_to_byte (z : Z) : byte_val (to_byte z) = Z.land z 255.
Proof.
  unfold byte_val, to_byte.
  assert (Hr : 0 <= Z.land z 255 < 256).
  { change 255 with (Z.ones 8). rewrite Z.land_ones by lia.
    apply Z.mod_pos_bound. lia. }
  destruct (Byte.of_N (Z.to_N (Z.land z 255))) as [x|] eqn:E.
  - apply Byte.to_of_N in E. rewrite E. lia.
  - apply Byte.of_N_None_iff in E. lia.
Qed.

Lemma pack_I_Some (n : Z) (packed : bytes) :
  pack_I n = Some packed -> 0 <= n < 2 ^ 32.
Proof.
  unfold pack_I. destruct (0 <=? n) eqn:E1, (n <? 2 ^ 32) eqn:E2; simpl;
    intros H; try discriminate H. lia.
Qed.

Lemma pack_I_None (n : Z) : pack_I n = None -> n < 0 \/ 2 ^ 32 <= n.
Proof.
  unfold pack_I. destruct (0 <=? n) eqn:E1, (n <? 2 ^ 32) eqn:E2; simpl;
    intros H; try discriminate H; lia.
Qed.

Lemma pack_I_fits (n : Z) :
  0 <= n < 2 ^ 32 -> exists packed, pack_I n = Some packed.
Proof.
  intros Hn. unfold pack_I.
  destruct (0 <=? n) eqn:E1, (n <? 2 ^ 32) eqn:E2; simpl; eauto; lia.
Qed.

Lemma pack_I_length (n : Z) (packed : bytes) :
  pack_I n = Some packed -> length packed = 4%nat.
Proof.
  unfold pack_I. destruct ((0 <=? n) && (n <? 2 ^ 32)); intros H;
    [injection H as <-; reflexivity | discriminate H].
Qed.

Lemma be_value_pack_I (n : Z) (packed : bytes) :
  pack_I n = Some packed -> be_value packed = n.
Proof.
  intros H. pose proof (pack_I_Some _ _ H) as Hn. revert H.
  unfold pack_I. destruct ((0 <=? n) && (n <? 2 ^ 32)); [|discriminate].
  intros H. injection H as <-. unfold be_value. simpl.
  rewrite !byte_val_to_byte. change 255 with (Z.ones 8).
  rewrite !Z.land_ones, !Z.shiftr_div_pow2 by lia.
  change (2 ^ 8) with 256. change (2 ^ 16) with 65536.
  change (2 ^ 24) with 16777216. change (2 ^ 32) with 4294967296 in Hn.
  Z.div_mod_to_equations. lia.
Qed.

(** ** Running the loop over [types] *)

Lemma loop_body_run (iconset_dir : string) (acc : list bytes)
  (item : bytes * string) (w : world) :
  loop_body iconset_dir acc item w =
  let path := os_path_join iconset_dir (snd item) in
  let path' := resolved_path (fs w) iconset_dir item in
  let probes := calls w ++ [SysStat path] ++ [SysStat path'] in
  match fs w !! path' with
  | None => (World (fs w) (stdout w ++ [warning item]) probes, inr acc)
  | Some Dir =>
      (World (fs w) (stdout w) (probes ++ [SysReadAll path']),
       inl (IsADirectoryError path'))
  | Some (File img_data) =>
      match pack_I (len img_data + 8) with
      | Some packed =>
          (World (fs w) (stdout w) (probes ++ [SysReadAll path']),
           inr (acc ++ [fst item ++ packed ++ img_data]))
      | None =>
          (World (fs w) (stdout w) (probes ++ [SysReadAll path']),
           inl StructError)
      end
  end.
Proof.
  destruct item as [tag filename]. destruct w as [files out cs].
  unfold loop_body, resolved_path, bind, os_path_exists, read_binary,
    make_block, struct_pack_I, print, ret, raise, log, warning, bind; simpl.
  generalize (os_path_join iconset_dir filename) as path. intros path.
  generalize (if negb (bool_decide (is_Some (files !! path)))
              then variant_path iconset_dir tag path else path) as path'.
  intros path'.
  destruct (files !! path') as [[img_data|]|] eqn:E.
  - rewrite bool_decide_eq_true_2 by eauto. cbn [fs stdout calls]. rewrite E.
    destruct (pack_I (len img_data + 8)); simpl;
      rewrite <- ?app_assoc; reflexivity.
  - rewrite bool_decide_eq_true_2 by eauto. cbn [fs stdout calls]. rewrite E.
    simpl. rewrite <- ?app_assoc. reflexivity.
  - rewrite bool_decide_eq_false_2 by (intros [? ?]; congruence).
    simpl. rewrite <- ?app_assoc. reflexivity.
Qed.

(** On the entries of [types], the variant path is the path itself. *)
Lemma variant_path_types (iconset_dir : string) (item : bytes * string) :
  In item types ->
  variant_path iconset_dir (fst item) (os_path_join iconset_dir (snd item))
  = os_path_join iconset_dir (snd item).
Proof.
  unfold types. simpl.
  intros H; repeat (destruct H as [<- | H]; [reflexivity|]). destruct H.
Qed.

Lemma resolved_path_types (files : gmap string node) (iconset_dir : string)
  (item : bytes * string) :
  In item types ->
  resolved_path files iconset_dir item = os_path_join iconset_dir (snd item).
Proof.
  intros H. unfold resolved_path.
  destruct (negb _); [apply variant_path_types, H | reflexivity].
Qed.

Lemma types_tag_length (item : bytes * string) :
  In item types -> length (fst item) = 4%nat.
Proof.
  unfold types. simpl.
  intros H; repeat (destruct H as [<- | H]; [reflexivity|]). destruct H.
Qed.


Lemma only_read_refl (w : world) : only_read w w.
Proof. split; [reflexivity|]. exists []. rewrite app_nil_r. auto. Qed.

Lemma only_read_trans (w1 w2 w3 : world) :
  only_read w1 w2 -> only_read w2 w3 -> only_read w1 w3.
Proof.
  intros [Hf1 (cs1 & Hc1 & Hr1)] [Hf2 (cs2 & Hc2 & Hr2)]. split.
  - congruence.
  - exists (cs1 ++ cs2). rewrite Hc2, Hc1, <- app_assoc. split; [reflexivity|].
    rewrite forallb_app, Hr1, Hr2. reflexivity.
Qed.

Lemma loop_body_only_read (iconset_dir : string) (acc : list bytes)
  (item : bytes * string) (w : world) :
  only_read w (fst (loop_body iconset_dir acc item w)).
Proof.
  rewrite loop_body_run. cbv zeta.
  destruct (fs w !! _) as [[img_data|]|]; [destruct (pack_I _)| |];
    (split; [reflexivity|]); simpl;
    rewrite <- ?app_assoc; eexists; (split; [reflexivity|]); reflexivity.
Qed.

Lemma for_each_only_read {A S} (body : S -> A -> M S) (l : list A) :
  (forall s x w, only_read w (fst (body s x w))) ->
  forall s w, only_read w (fst (for_each l body s w)).
Proof.
  intros Hbody. induction l as [|x l IH]; intros s w; simpl.
  - apply only_read_refl.
  - unfold bind. specialize (Hbody s x w).
    destruct (body s x w) as [w1 [e|s1]]; simpl in *; [exact Hbody|].
    eapply only_read_trans; [exact Hbody | apply IH].
Qed.

Lemma collect_blocks_only_read (iconset_dir : string) (w : world) :
  only_read w (fst (collect_blocks iconset_dir w)).
Proof. apply for_each_only_read. intros. apply loop_body_only_read. Qed.

Lemma found_in_true (files : gmap string node) (iconset_dir : string)
  (item : bytes * string) (n : node) :
  files !! os_path_join iconset_dir (snd item) = Some n ->
  found_in files iconset_dir item = true.
Proof. intros E. unfold found_in. apply bool_decide_eq_true_2. eauto. Qed.

Lemma found_in_false (files : gmap string node) (iconset_dir : string)
  (item : bytes * string) :
  files !! os_path_join iconset_dir (snd item) = None ->
  found_in files iconset_dir item = false.
Proof.
  intros E. unfold found_in. apply bool_decide_eq_false_2.
  intros [? ?]. congruence.
Qed.

Lemma collect_success (iconset_dir : string) (l : list (bytes * string)) :
  (forall item, In item l -> In item types) ->
  forall acc w w' blocks,
    for_each l (loop_body iconset_dir) acc w = (w', inr blocks) ->
    blocks = acc ++ omap (block_of (fs w) iconset_dir) l /\
    stdout w' = stdout w ++
      map warning
        (filter (fun item => negb (found_in (fs w) iconset_dir item)) l) /\
    (forall item, In item l -> found_in (fs w) iconset_dir item = true ->
                  is_Some (block_of (fs w) iconset_dir item)).
Proof.
  induction l as [|item l IH]; intros Hin acc w w' blocks; simpl.
  - unfold ret. intros [= <- <-]. rewrite !app_nil_r. repeat split.
    intros ? [].
  - unfold bind. rewrite loop_body_run. cbv zeta.
    rewrite resolved_path_types by (apply Hin; left; reflexivity).
    rewrite filter_cons.
    destruct (fs w !! os_path_join iconset_dir (snd item))
      as [[img_data|]|] eqn:E.
    + destruct (pack_I (len img_data + 8)) as [packed|] eqn:Ep;
        [|discriminate].
      assert (Hb : block_of (fs w) iconset_dir item
                   = Some (fst item ++ packed ++ img_data))
        by (unfold block_of; rewrite E, Ep; reflexivity).
      intros Hrest. apply IH in Hrest; [|intros; apply Hin; right; assumption].
      simpl in Hrest. destruct Hrest as (-> & -> & Hall).
      rewrite Hb, (found_in_true _ _ _ _ E). simpl.
      rewrite <- app_assoc. repeat split.
      intros item' [<- | Hin'] Hf; [rewrite Hb; eauto | apply Hall; assumption].
    + discriminate.
    + assert (Hb : block_of (fs w) iconset_dir item = None)
        by (unfold block_of; rewrite E; reflexivity).
      intros Hrest. apply IH in Hrest; [|intros; apply Hin; right; assumption].
      simpl in Hrest. destruct Hrest as (-> & -> & Hall).
      rewrite Hb, (found_in_false _ _ _ E). simpl.
      rewrite <- app_assoc. repeat split.
      intros item' [<- | Hin'] Hf;
        [rewrite (found_in_false _ _ _ E) in Hf; discriminate
        | apply Hall; assumption].
Qed.

(** ** Running the writer *)

Lemma write_blocks_run (output_file : string) (data_blocks : list bytes) :
  forall (w : world) (content : bytes),
    fs w !! output_file = Some (File content) ->
    write_blocks output_file data_blocks w =
    (World (<[output_file := File (content ++ concat data_blocks)]> (fs w))
           (stdout w) (calls w ++ map (SysWrite output_file) data_blocks),
     inr tt).
Proof.
  unfold write_blocks.
  induction data_blocks as [|block l IH]; intros w content E; simpl.
  - unfold ret. rewrite !app_nil_r, insert_id by exact E.
    destruct w; reflexivity.
  - unfold bind, f_write at 1. rewrite E.
    rewrite (IH _ (content ++ block)) by (simpl; apply lookup_insert_eq).
    simpl. rewrite insert_insert_eq, <- !app_assoc. reflexivity.
Qed.

Lemma write_container_run (output_file : string) (data_blocks : list bytes)
  (w : world) :
  write_container output_file data_blocks w =
  match fs w !! output_file with
  | Some Dir =>
      (log (SysOpenTrunc output_file) w, inl (IsADirectoryError output_file))
  | _ =>
      match pack_I (sum_len data_blocks + 8) with
      | None =>
          (World (<[output_file := File []]> (fs w)) (stdout w)
                 (calls w ++ [SysOpenTrunc output_file]), inl StructError)
      | Some packed =>
          (World (<[output_file :=
                      File (b "icns" ++ packed ++ concat data_blocks)]> (fs w))
                 (stdout w)
                 (calls w ++ SysOpenTrunc output_file
                    :: map (SysWrite output_file)
                         ((b "icns" ++ packed) :: data_blocks)),
           inr tt)
      end
  end.
Proof.
  unfold write_container, bind, open_wb, struct_pack_I.
  destruct (fs w !! output_file) as [[content|]|] eqn:E; [|reflexivity|];
    (destruct (pack_I (sum_len data_blocks + 8)) as [packed|];
     [|reflexivity]);
    unfold ret, f_write; cbn [fs stdout calls];
    rewrite lookup_insert_eq;
    erewrite write_blocks_run by (cbn [fs]; apply lookup_insert_eq);
    cbn [fs stdout calls];
    rewrite !insert_insert_eq, <- !app_assoc; reflexivity.
Qed.

Lemma write_container_run_file (output_file : string)
  (data_blocks : list bytes) (w : world) :
  fs w !! output_file <> Some Dir ->
  write_container output_file data_blocks w =
  match pack_I (sum_len data_blocks + 8) with
  | None =>
      (World (<[output_file := File []]> (fs w)) (stdout w)
             (calls w ++ [SysOpenTrunc output_file]), inl StructError)
  | Some packed =>
      (World (<[output_file :=
                  File (b "icns" ++ packed ++ concat data_blocks)]> (fs w))
             (stdout w)
             (calls w ++ SysOpenTrunc output_file
                :: map (SysWrite output_file)
                     ((b "icns" ++ packed) :: data_blocks)),
       inr tt)
  end.
Proof.
  intros Hdir. rewrite write_container_run.
  destruct (fs w !! output_file) as [[content|]|]; congruence.
Qed.

Lemma replay_app (cs1 cs2 : list syscall) (files : gmap string node) :
  replay (cs1 ++ cs2) files = replay cs2 (replay cs1 files).
Proof. apply fold_left_app. Qed.

Lemma replay_read_only (cs : list syscall) (files : gmap string node) :
  forallb read_only cs = true -> replay cs files = files.
Proof.
  induction cs as [|c cs IH]; simpl; [reflexivity|].
  intros H. apply andb_prop in H as [Hc Hcs].
  destruct c; simpl in *; try discriminate; apply IH, Hcs.
Qed.

Lemma replay_writes (path : string) (pieces : list bytes) :
  forall (files : gmap string node) (content : bytes),
    files !! path = Some (File content) ->
    replay (map (SysWrite path) pieces) files
    = <[path := File (content ++ concat pieces)]> files.
Proof.
  induction pieces as [|piece l IH]; intros files content E; simpl.
  - rewrite app_nil_r, insert_id by exact E. reflexivity.
  - rewrite E. rewrite (IH _ (content ++ piece)) by apply lookup_insert_eq.
    rewrite insert_insert_eq, <- app_assoc. reflexivity.
Qed.

(** ** Running [create_icns] *)

Lemma create_icns_run (iconset_dir output_file : string) (w : world) :
  create_icns iconset_dir output_file w =
  match collect_blocks iconset_dir w with
  | (w1, inl e) => (w1, inl e)
  | (w1, inr []) =>
      (World (fs w1) (stdout w1 ++ [no_icons]) (calls w1), inl (SystemExit 1))
  | (w1, inr data_blocks) =>
      match write_container output_file data_blocks w1 with
      | (w2, inl e) => (w2, inl e)
      | (w2, inr _) =>
          (World (fs w2) (stdout w2 ++ [success output_file]) (calls w2),
           inr tt)
      end
  end.
Proof.
  unfold create_icns, bind at 1.
  destruct (collect_blocks iconset_dir w) as [w1 [e|[|block l]]];
    reflexivity.
Qed.

(** A run that returns went through the three stages. *)
Lemma create_icns_success (iconset_dir output_file : string) (w w' : world) :
  create_icns iconset_dir output_file w = (w', inr tt) ->
  exists w1 data_blocks packed,
    collect_blocks iconset_dir w = (w1, inr data_blocks) /\
    data_blocks <> [] /\
    pack_I (sum_len data_blocks + 8) = Some packed /\
    fs w' = <[output_file := File (b "icns" ++ packed ++ concat data_blocks)]>
              (fs w) /\
    calls w' = calls w1 ++ SysOpenTrunc output_file
                 :: map (SysWrite output_file)
                      ((b "icns" ++ packed) :: data_blocks) /\
    stdout w' = stdout w1 ++ [success output_file].
Proof.
  rewrite create_icns_run.
  pose proof (collect_blocks_only_read iconset_dir w) as [Hfs _].
  destruct (collect_blocks iconset_dir w) as [w1 [e|data_blocks]];
    [discriminate|]. simpl in Hfs.
  destruct data_blocks as [|block l]; [discriminate|].
  rewrite write_container_run.
  destruct (fs w1 !! output_file) as [[content|]|];
    try discriminate;
    (destruct (pack_I (sum_len (block :: l) + 8)) as [packed|] eqn:Ep;
     [|discriminate]);
    intros H; injection H as <-; exists w1, (block :: l), packed; simpl;
    rewrite Hfs; repeat split;
    first [reflexivity | discriminate | exact Ep].
Qed.

Lemma file_at_insert (path : string) (content : bytes) (w : world)
  (files : gmap string node) :
  fs w = <[path := File content]> files -> file_at path w = Some content.
Proof. intros E. unfold file_at. rewrite E, lookup_insert_eq. reflexivity. Qed.

(** ** The blocks of a run *)

(** A block made of a 4-byte tag, a 4-byte field and a payload. *)
Lemma block_parts (tag packed payload rest : bytes) :
  length tag = 4%nat -> length packed = 4%nat ->
  take 4 (tag ++ packed ++ payload ++ rest) = tag /\
  take 4 (drop 4 (tag ++ packed ++ payload ++ rest)) = packed /\
  drop 8 (tag ++ packed ++ payload ++ rest) = payload ++ rest.
Proof.
  intros Ht Hp. repeat split.
  - rewrite take_app_length' by done. reflexivity.
  - rewrite drop_app_length' by done.
    rewrite take_app_length' by done. reflexivity.
  - change 8%nat with (4 + 4)%nat. rewrite <- drop_drop.
    rewrite drop_app_length' by done.
    rewrite drop_app_length' by done. reflexivity.
Qed.

Lemma block_of_parts (files : gmap string node) (iconset_dir : string)
  (item : bytes * string) (block : bytes) :
  In item types ->
  block_of files iconset_dir item = Some block ->
  exists img_data,
    files !! os_path_join iconset_dir (snd item) = Some (File img_data) /\
    block_tag block = fst item /\
    block_length block = len img_data + 8 /\
    block_payload block = img_data /\
    len block = len img_data + 8.
Proof.
  intros Hin. unfold block_of.
  destruct (files !! _) as [[img_data|]|]; try discriminate.
  destruct (pack_I (len img_data + 8)) as [packed|] eqn:Ep; [|discriminate].
  intros [= <-]. exists img_data.
  pose proof (types_tag_length _ Hin) as Ht.
  pose proof (pack_I_length _ _ Ep) as Hp.
  destruct (block_parts (fst item) packed img_data [] Ht Hp) as (H1 & H2 & H3).
  rewrite app_nil_r in H1, H2, H3.
  unfold block_tag, block_length, block_payload. rewrite H1, H2, H3.
  repeat split. 
  - apply be_value_pack_I, Ep.
  - unfold len. rewrite !length_app, Ht, Hp. lia.
Qed.

Lemma collect_blocks_success (iconset_dir : string) (w w' : world)
  (data_blocks : list bytes) :
  collect_blocks iconset_dir w = (w', inr data_blocks) ->
  data_blocks = omap (block_of (fs w) iconset_dir) types /\
  (forall item, In item types -> found_in (fs w) iconset_dir item = true ->
                is_Some (block_of (fs w) iconset_dir item)).
Proof.
  intros H.
  destruct (collect_success iconset_dir types (fun _ Hin => Hin) _ _ _ _ H)
    as (-> & _ & Hall).
  split; [reflexivity | exact Hall].
Qed.

Lemma collect_blocks_warnings (iconset_dir : string) (w w' : world)
  (data_blocks : list bytes) :
  collect_blocks iconset_dir w = (w', inr data_blocks) ->
  stdout w' = stdout w ++
    map warning
      (filter (fun item => negb (found_in (fs w) iconset_dir item)) types).
Proof.
  intros H.
  destruct (collect_success iconset_dir types (fun _ Hin => Hin) _ _ _ _ H)
    as (_ & Hout & _).
  exact Hout.
Qed.

Lemma in_omap_block_of (files : gmap string node) (iconset_dir : string)
  (l : list (bytes * string)) (block : bytes) :
  In block (omap (block_of files iconset_dir) l) ->
  exists item, In item l /\ block_of files iconset_dir item = Some block.
Proof.
  rewrite <- list_elem_of_In, list_elem_of_omap.
  intros (item & Hin & Hb). exists item. rewrite <- list_elem_of_In. auto.
Qed.

Lemma sum_len_foldr (l : list bytes) (a : Z) :
  fold_left (fun acc blk => acc + len blk) l a
  = a + foldr (fun blk acc => len blk + acc) 0 l.
Proof.
  revert a. induction l as [|blk l IH]; intros a; simpl; [lia|].
  rewrite IH. lia.
Qed.

Lemma sum_len_concat (l : list bytes) : sum_len l = len (concat l).
Proof.
  unfold sum_len. rewrite sum_len_foldr.
  induction l as [|blk l IH]; simpl; [reflexivity|].
  unfold len in *. rewrite length_app. lia.
Qed.

Lemma sum_len_block_lengths (l : list bytes) :
  Forall (fun block => block_length block = len block) l ->
  sum_len l = sum_block_lengths l.
Proof.
  unfold sum_len. rewrite sum_len_foldr.
  induction 1 as [|blk l Hb _ IH]; simpl; [reflexivity|].
  simpl in IH. rewrite Hb. lia.
Qed.

Lemma collect_blocks_lengths (iconset_dir : string) (w w' : world)
  (data_blocks : list bytes) :
  collect_blocks iconset_dir w = (w', inr data_blocks) ->
  Forall (fun block => block_length block = len block) data_blocks.
Proof.
  intros H. apply collect_blocks_success in H as [-> _].
  apply Forall_forall. intros block Hin. rewrite list_elem_of_In in Hin.
  apply in_omap_block_of in Hin as (item & Hitem & Hb).
  apply block_of_parts in Hb as (img & _ & _ & Hl & _ & Hlen); [|exact Hitem].
  congruence.
Qed.

(** C1. Every block appended to [data_blocks] carries, in its bytes 4 to
    7 read as a big-endian number, the length of its payload (the bytes
    from offset 8 on) plus 8, which is the length of the whole block; its
    first four bytes are a tag of [types]. *)
Theorem block_length_is_payload_plus_8 (iconset_dir : string) (w w' : world)
  (data_blocks : list bytes) (block : bytes) :
  collect_blocks iconset_dir w = (w', inr data_blocks) ->
  In block data_blocks ->
  block_length block = len (block_payload block) + 8 /\
  block_length block = len block /\
  In (block_tag block) (map fst types).
Proof.
  intros H Hin. apply collect_blocks_success in H as [-> _].
  apply in_omap_block_of in Hin as (item & Hitem & Hb).
  apply block_of_parts in Hb as (img & _ & Ht & Hl & Hp & Hlen);
    [|exact Hitem].
  rewrite Hl, Hp, Ht, Hlen. repeat split. apply in_map, Hitem.
Qed.

Lemma block_length_is_payload_plus_8_witness :
  block_length (b "icp4" ++ [x00; x00; x00; x12] ++ ten) = 10 + 8.
Proof.
  refine (proj1 (block_length_is_payload_plus_8 "icons" (init one_icon)
           (fst (collect_blocks "icons" (init one_icon)))
           [b "icp4" ++ [x00; x00; x00; x12] ++ ten] _ _ _)).
  - vm_compute. reflexivity.
  - left. reflexivity.
Defined.

(** C2, as the code has it. When [create_icns] returns, the file at the
    output path is the 8-byte header followed by the blocks, and the
    big-endian number in bytes 4 to 7 of the header equals the sum of the
    length fields of the blocks plus 8, which is the byte length of the
    whole file. *)
Theorem total_length_is_file_size (iconset_dir output_file : string)
  (w w' : world) :
  create_icns iconset_dir output_file w = (w', inr tt) ->
  exists data_blocks container,
    snd (collect_blocks iconset_dir w) = inr data_blocks /\
    file_at output_file w' = Some container /\
    take 4 container = b "icns" /\
    drop 8 container = concat data_blocks /\
    header_total container = sum_block_lengths data_blocks + 8 /\
    header_total container = len container.
Proof.
  intros H.
  apply create_icns_success in H
    as (w1 & data_blocks & packed & Hc & _ & Hp & Hfs & _).
  exists data_blocks, (b "icns" ++ packed ++ concat data_blocks).
  pose proof (pack_I_length _ _ Hp) as Hlen.
  destruct (block_parts (b "icns") packed (concat data_blocks) []
              eq_refl Hlen) as (H1 & H2 & H3).
  rewrite app_nil_r in H1, H2, H3.
  unfold header_total. rewrite H1, H2, H3, Hc.
  rewrite (be_value_pack_I _ _ Hp).
  repeat split.
  - eapply file_at_insert, Hfs.
  - f_equal. apply sum_len_block_lengths.
    eapply collect_blocks_lengths, Hc.
  - rewrite sum_len_concat. unfold len. rewrite !length_app, Hlen.
    simpl. lia.
Qed.

Lemma total_length_is_file_size_witness :
  exists data_blocks container,
    snd (collect_blocks "icons" (init one_icon)) = inr data_blocks /\
    file_at "out.icns"
      (fst (create_icns "icons" "out.icns" (init one_icon))) = Some container /\
    take 4 container = b "icns" /\
    drop 8 container = concat data_blocks /\
    header_total container = sum_block_lengths data_blocks + 8 /\
    header_total container = len container.
Proof.
  apply (total_length_is_file_size "icons" "out.icns" (init one_icon)).
  vm_compute. reflexivity.
Defined.

(** C2, as the spec words it, fails: packing the 10-byte icon writes a
    26-byte file whose header field is 26, not 26 - 8. *)
Lemma total_length_is_not_file_size_minus_8 :
  exists w' container,
    create_icns "icons" "out.icns" (init one_icon) = (w', inr tt) /\
    file_at "out.icns" w' = Some container /\
    len container = 26 /\
    header_total container = 26 /\
    header_total container <> len container - 8.
Proof.
  eexists _, _. split; [vm_compute; reflexivity|].
  split; [vm_compute; reflexivity|].
  split; [vm_compute; reflexivity|].
  split; [vm_compute; reflexivity|].
  vm_compute. discriminate.
Qed.





(** ** Directories in which no icon is found *)

Lemma collect_all_missing (iconset_dir : string) (l : list (bytes * string)) :
  forall (acc : list bytes) (w : world),
    (forall item, In item l ->
       In item types /\ found_in (fs w) iconset_dir item = false) ->
    for_each l (loop_body iconset_dir) acc w =
    (World (fs w) (stdout w ++ map warning l)
           (calls w ++ flat_map (probes iconset_dir) l), inr acc).
Proof.
  induction l as [|item l IH]; intros acc w Hall; simpl.
  - unfold ret. rewrite !app_nil_r. destruct w; reflexivity.
  - destruct (Hall item (or_introl eq_refl)) as [Hin Hf].
    unfold bind. rewrite loop_body_run. cbv zeta.
    rewrite resolved_path_types by exact Hin.
    unfold found_in in Hf. apply bool_decide_eq_false_1 in Hf.
    destruct (fs w !! os_path_join iconset_dir (snd item)) eqn:E;
      [exfalso; apply Hf; eauto|].
    rewrite IH by (simpl; intros; apply Hall; right; assumption).
    simpl. rewrite <- !app_assoc. reflexivity.
Qed.

Lemma create_icns_all_missing (iconset_dir output_file : string) (w : world) :
  (forall item, In item types -> found_in (fs w) iconset_dir item = false) ->
  create_icns iconset_dir output_file w =
  (World (fs w) (stdout w ++ map warning types ++ [no_icons])
         (calls w ++ flat_map (probes iconset_dir) types),
   inl (SystemExit 1)).
Proof.
  intros Hall. rewrite create_icns_run. unfold collect_blocks.
  rewrite collect_all_missing
    by (intros; split; [assumption | apply Hall; assumption]).
  cbn [fs stdout calls]. rewrite <- app_assoc. reflexivity.
Qed.

Lemma probes_read_only (iconset_dir : string) (l : list (bytes * string)) :
  forallb read_only (flat_map (probes iconset_dir) l) = true.
Proof. induction l as [|item l IH]; simpl; [reflexivity | exact IH]. Qed.

(** C7. When the file of no entry of [types] exists, the run prints the
    error and exits with status 1 having issued no call that creates or
    writes a file: the file system it leaves is the one it found, so no
    output file appears and an existing one keeps its content. *)
Theorem no_icons_exits_before_writing (iconset_dir output_file : string)
  (w : world) :
  (forall item, In item types -> found_in (fs w) iconset_dir item = false) ->
  exists w',
    create_icns iconset_dir output_file w = (w', inl (SystemExit 1)) /\
    exit_code (snd (create_icns iconset_dir output_file w)) = 1 /\
    last (stdout w') = Some no_icons /\
    fs w' = fs w /\
    fs w' !! output_file = fs w !! output_file /\
    exists cs, calls w' = calls w ++ cs /\ forallb read_only cs = true.
Proof.
  intros Hall. rewrite (create_icns_all_missing _ _ _ Hall).
  eexists. split; [reflexivity|]. cbn [fs stdout calls snd exit_code].
  repeat split.
  - rewrite app_assoc. apply last_snoc.
  - eexists. split; [reflexivity | apply probes_read_only].
Qed.

Lemma no_icons_exits_before_writing_witness :
  exists w',
    create_icns "icons" "out.icns" (init earlier_output)
    = (w', inl (SystemExit 1)) /\
    exit_code (snd (create_icns "icons" "out.icns" (init earlier_output)))
    = 1 /\
    last (stdout w') = Some no_icons /\
    fs w' = earlier_output /\
    fs w' !! "out.icns" = earlier_output !! "out.icns" /\
    exists cs, calls w' = [] ++ cs /\ forallb read_only cs = true.
Proof.
  apply (no_icons_exits_before_writing "icons" "out.icns"
           (init earlier_output)).
  intros item Hin. simpl in Hin.
  repeat (destruct Hin as [<- | Hin]; [vm_compute; reflexivity|]).
  destruct Hin.
Defined.

(** C6, as the code has it. A missing source directory is not checked for:
    every entry of [types] is probed in turn and reported missing, and
    only then does the run stop, on the no-icons error, with status 1 and
    the file system unchanged. *)
Theorem missing_directory_probes_every_tag (iconset_dir output_file : string)
  (w : world) :
  nothing_under (fs w) iconset_dir ->
  create_icns iconset_dir output_file w =
  (World (fs w) (stdout w ++ map warning types ++ [no_icons])
         (calls w ++ flat_map (probes iconset_dir) types),
   inl (SystemExit 1)) /\
  exit_code (snd (create_icns iconset_dir output_file w)) = 1.
Proof.
  intros Hnone.
  assert (Hall : forall item, In item types ->
                   found_in (fs w) iconset_dir item = false).
  { intros item Hin. apply found_in_false, Hnone.
    unfold types in Hin. simpl in Hin.
    repeat (destruct Hin as [<- | Hin]; [reflexivity|]). destruct Hin. }
  rewrite (create_icns_all_missing _ _ _ Hall). split; reflexivity.
Qed.

Lemma missing_directory_probes_every_tag_witness :
  create_icns "missing" "out.icns" (init ∅) =
  (World ∅ ([] ++ map warning types ++ [no_icons])
         ([] ++ flat_map (probes "missing") types),
   inl (SystemExit 1)) /\
  exit_code (snd (create_icns "missing" "out.icns" (init ∅))) = 1.
Proof.
  apply (missing_directory_probes_every_tag "missing" "out.icns" (init ∅)).
  intros name _. apply lookup_empty.
Defined.

(** C6, as the spec words it, fails: on a directory that does not exist
    the run stats two paths for each of the eleven tags and prints eleven
    warnings before it stops, and the error it stops on is the no-icons
    one. *)
Lemma missing_directory_is_not_checked_first :
  nothing_under ∅ "missing" /\
  exists w',
    create_icns "missing" "out.icns" (init ∅) = (w', inl (SystemExit 1)) /\
    length (calls w') = 22%nat /\
    calls w' !! 0%nat = Some (SysStat "missing/icon_16x16.png") /\
    stdout w' !! 0%nat
    = Some "Warning: icon_16x16.png not found, skipping icp4" /\
    length (stdout w') = 12%nat /\
    last (stdout w') = Some "Error: No icons found to pack!".
Proof.
  split; [intros name _; apply lookup_empty|].
  eexists. split; [vm_compute; reflexivity|].
  repeat split.
Qed.

(** ** Zero-length files *)





(** ** The variants *)






Lemma loop_body_plain_run (iconset_dir : string) (acc : list bytes)
  (item : bytes * string) (w : world) :
  loop_body_plain iconset_dir acc item w =
  let path := os_path_join iconset_dir (snd item) in
  let probe := calls w ++ [SysStat path] in
  match fs w !! path with
  | None => (World (fs w) (stdout w ++ [warning item]) probe, inr acc)
  | Some Dir =>
      (World (fs w) (stdout w) (probe ++ [SysReadAll path]),
       inl (IsADirectoryError path))
  | Some (File img_data) =>
      match pack_I (len img_data + 8) with
      | Some packed =>
          (World (fs w) (stdout w) (probe ++ [SysReadAll path]),
           inr (acc ++ [fst item ++ packed ++ img_data]))
      | None =>
          (World (fs w) (stdout w) (probe ++ [SysReadAll path]),
           inl StructError)
      end
  end.
Proof.
  destruct item as [tag filename]. destruct w as [files out cs].
  unfold loop_body_plain, bind, os_path_exists, read_binary,
    make_block, struct_pack_I, print, ret, raise, log, warning, bind; simpl.
  generalize (os_path_join iconset_dir filename) as path. intros path.
  destruct (files !! path) as [[img_data|]|] eqn:E.
  - rewrite bool_decide_eq_true_2 by eauto. cbn [fs stdout calls]. rewrite E.
    destruct (pack_I (len img_data + 8)); reflexivity.
  - rewrite bool_decide_eq_true_2 by eauto. cbn [fs stdout calls]. rewrite E.
    reflexivity.
  - rewrite bool_decide_eq_false_2 by (intros [? ?]; congruence).
    reflexivity.
Qed.

Lemma filter_snoc_stat (cs : list syscall) (path : string) :
  filter (fun c => negb (is_stat c)) (cs ++ [SysStat path])
  = filter (fun c => negb (is_stat c)) cs.
Proof. rewrite filter_app. simpl. apply app_nil_r. Qed.

Lemma filter_snoc_read (cs : list syscall) (path : string) :
  filter (fun c => negb (is_stat c)) (cs ++ [SysReadAll path])
  = filter (fun c => negb (is_stat c)) cs ++ [SysReadAll path].
Proof. rewrite filter_app. reflexivity. Qed.

Lemma collect_plain_equiv (iconset_dir : string) (l : list (bytes * string)) :
  (forall item, In item l -> In item types) ->
  forall acc w1 w2,
    same_but_stats w1 w2 ->
    same_but_stats (fst (for_each l (loop_body iconset_dir) acc w1))
                   (fst (for_each l (loop_body_plain iconset_dir) acc w2)) /\
    snd (for_each l (loop_body iconset_dir) acc w1)
    = snd (for_each l (loop_body_plain iconset_dir) acc w2).
Proof.
  induction l as [|item l IH]; intros Hin acc w1 w2 Hsame; simpl.
  - split; [exact Hsame | reflexivity].
  - unfold bind. rewrite loop_body_run, loop_body_plain_run. cbv zeta.
    rewrite resolved_path_types by (apply Hin; left; reflexivity).
    destruct Hsame as (Hfs & Hout & Hcalls). rewrite Hfs, Hout.
    assert (Hin' : forall item', In item' l -> In item' types)
      by (intros; apply Hin; right; assumption).
    destruct (fs w2 !! os_path_join iconset_dir (snd item))
      as [[img_data|]|].
    + destruct (pack_I (len img_data + 8)) as [packed|].
      * apply IH; [exact Hin'|]. repeat split; cbn [fs stdout calls].
        rewrite !filter_snoc_read, app_assoc, !filter_snoc_stat, Hcalls.
        reflexivity.
      * repeat split; cbn [fst fs stdout calls].
        rewrite !filter_snoc_read, app_assoc, !filter_snoc_stat, Hcalls.
        reflexivity.
    + repeat split; cbn [fst fs stdout calls].
      rewrite !filter_snoc_read, app_assoc, !filter_snoc_stat, Hcalls.
      reflexivity.
    + apply IH; [exact Hin'|]. repeat split; cbn [fs stdout calls].
      rewrite app_assoc, !filter_snoc_stat, Hcalls. reflexivity.
Qed.

Lemma write_container_equiv (output_file : string) (data_blocks : list bytes)
  (w1 w2 : world) :
  same_but_stats w1 w2 ->
  same_but_stats (fst (write_container output_file data_blocks w1))
                 (fst (write_container output_file data_blocks w2)) /\
  snd (write_container output_file data_blocks w1)
  = snd (write_container output_file data_blocks w2).
Proof.
  intros (Hfs & Hout & Hcalls). rewrite !write_container_run.
  rewrite Hfs, Hout.
  destruct (fs w2 !! output_file) as [[content|]|];
    try destruct (pack_I (sum_len data_blocks + 8)) as [packed|];
    unfold log; repeat split; cbn [fst fs stdout calls];
    rewrite ?filter_app, ?Hcalls; first [assumption | reflexivity].
Qed.

Lemma create_icns_plain_run (iconset_dir output_file : string) (w : world) :
  create_icns_plain iconset_dir output_file w =
  match collect_blocks_plain iconset_dir w with
  | (w1, inl e) => (w1, inl e)
  | (w1, inr []) =>
      (World (fs w1) (stdout w1 ++ [no_icons]) (calls w1), inl (SystemExit 1))
  | (w1, inr data_blocks) =>
      match write_container output_file data_blocks w1 with
      | (w2, inl e) => (w2, inl e)
      | (w2, inr _) =>
          (World (fs w2) (stdout w2 ++ [success output_file]) (calls w2),
           inr tt)
      end
  end.
Proof.
  unfold create_icns_plain, bind at 1.
  destruct (collect_blocks_plain iconset_dir w) as [w1 [e|[|block l]]];
    reflexivity.
Qed.

(** C10. The variant block never changes the path: for icp4 and icp5 it
    assigns the path [path] already holds, and for the other tags it
    assigns nothing. A run of the script and a run of the script without
    that block leave the same files and the same output, return or raise
    the same, and read the same files; only the number of [stat] calls
    differs. *)
Theorem variants_change_nothing (iconset_dir output_file : string)
  (w : world) :
  variant_path iconset_dir (b "icp4")
    (os_path_join iconset_dir "icon_16x16.png")
  = os_path_join iconset_dir "icon_16x16.png" /\
  variant_path iconset_dir (b "icp5")
    (os_path_join iconset_dir "icon_32x32.png")
  = os_path_join iconset_dir "icon_32x32.png" /\
  (forall files item, In item types ->
     resolved_path files iconset_dir item
     = os_path_join iconset_dir (snd item)) /\
  observed (collect_blocks iconset_dir w)
  = observed (collect_blocks_plain iconset_dir w) /\
  observed (create_icns iconset_dir output_file w)
  = observed (create_icns_plain iconset_dir output_file w).
Proof.
  split; [reflexivity|]. split; [reflexivity|].
  split; [intros; apply resolved_path_types; assumption|].
  assert (Hsame : same_but_stats w w) by (repeat split).
  destruct (collect_plain_equiv iconset_dir types (fun _ Hin => Hin) [] w w
              Hsame) as [(Hfs & Hout & Hcalls) Hres].
  fold (collect_blocks iconset_dir w) in Hfs, Hout, Hcalls, Hres.
  fold (collect_blocks_plain iconset_dir w) in Hfs, Hout, Hcalls, Hres.
  split.
  - unfold observed. rewrite Hfs, Hout, Hcalls, Hres. reflexivity.
  - rewrite create_icns_run, create_icns_plain_run.
    destruct (collect_blocks iconset_dir w) as [w1 r1].
    destruct (collect_blocks_plain iconset_dir w) as [w2 r2].
    simpl in Hfs, Hout, Hcalls, Hres. subst r2.
    destruct r1 as [e|[|block l]].
    + unfold observed. simpl. rewrite Hfs, Hout, Hcalls. reflexivity.
    + unfold observed. simpl. rewrite Hfs, Hout, Hcalls. reflexivity.
    + destruct (write_container_equiv output_file (block :: l) w1 w2)
        as [(Hfs' & Hout' & Hcalls') Hres']; [repeat split; assumption|].
      destruct (write_container output_file (block :: l) w1) as [w1' r1'].
      destruct (write_container output_file (block :: l) w2) as [w2' r2'].
      simpl in Hfs', Hout', Hcalls', Hres'. subst r2'.
      destruct r1' as [e|[]]; unfold observed; simpl;
        rewrite Hfs', Hout', Hcalls'; reflexivity.
Qed.

Lemma variants_change_nothing_witness :
  observed (create_icns "icons" "out.icns" (init one_icon))
  = observed (create_icns_plain "icons" "out.icns" (init one_icon)).
Proof.
  apply (variants_change_nothing "icons" "out.icns" (init one_icon)).
Defined.

(** ** Interrupted runs *)






(** ** Writing entries and reading them back *)

Lemma encode_entry_run (acc : list bytes) (entry : bytes * bytes)
  (w : world) :
  encode_entry acc entry w =
  match pack_I (len (snd entry) + 8) with
  | Some packed => (w, inr (acc ++ [fst entry ++ packed ++ snd entry]))
  | None => (w, inl StructError)
  end.
Proof.
  unfold encode_entry, make_block, bind, struct_pack_I.
  destruct (pack_I (len (snd entry) + 8)); reflexivity.
Qed.

Lemma container_size_ge (entries : list (bytes * bytes)) :
  8 <= container_size entries.
Proof.
  unfold container_size.
  induction entries as [|e l IH]; simpl; unfold len in *; lia.
Qed.

Lemma encode_loop_run (entries : list (bytes * bytes)) :
  forall (acc : list bytes) (w : world),
    (exists blocks,
       Forall2 encodes entries blocks /\
       for_each entries encode_entry acc w = (w, inr (acc ++ blocks))) \/
    (2 ^ 32 <= container_size entries /\
     for_each entries encode_entry acc w = (w, inl StructError)).
Proof.
  induction entries as [|[tag payload] entries IH]; intros acc w.
  - left. exists []. split; [constructor|]. simpl. rewrite app_nil_r.
    reflexivity.
  - pose proof (container_size_ge entries) as Hge.
    simpl. unfold bind. rewrite encode_entry_run. simpl.
    destruct (pack_I (len payload + 8)) as [packed|] eqn:Ep.
    + destruct (IH (acc ++ [tag ++ packed ++ payload]) w)
        as [(blocks & Hall & Hrun) | [Hbig Hrun]].
      * left. exists ((tag ++ packed ++ payload) :: blocks).
        split; [constructor; [exists packed; auto | exact Hall]|].
        rewrite Hrun, <- app_assoc. reflexivity.
      * right. split; [|exact Hrun].
        unfold container_size in *. simpl. unfold len in *. lia.
    + right. split; [|reflexivity].
      apply pack_I_None in Ep. unfold container_size in *. simpl.
      unfold len in *. lia.
Qed.

Lemma encodes_sum_len (entries : list (bytes * bytes)) (blocks : list bytes) :
  Forall2 encodes entries blocks ->
  Forall (fun entry => length (fst entry) = 4%nat) entries ->
  sum_len blocks + 8 = container_size entries.
Proof.
  intros Hall Htags. rewrite sum_len_concat. unfold container_size.
  induction Hall as [|[tag payload] block entries blocks
                        (packed & Hp & ->) _ IH]; simpl; [reflexivity|].
  apply Forall_cons in Htags as [Ht Htags]. simpl in Ht.
  specialize (IH Htags). apply pack_I_length in Hp.
  unfold len in *. rewrite !length_app, Ht, Hp. simpl in *. lia.
Qed.

Lemma read_blocks_encoded (total : Z) (entries : list (bytes * bytes)) :
  forall (blocks : list bytes) (acc : list (bytes * bytes)) (consumed : Z)
         (fuel : nat),
    Forall2 encodes entries blocks ->
    Forall (fun entry => length (fst entry) = 4%nat) entries ->
    NoDup (map fst (acc ++ entries)) ->
    consumed + len (concat blocks) = total ->
    (length (concat blocks) <= fuel)%nat ->
    read_blocks fuel total consumed (concat blocks) acc = inr (acc ++ entries).
Proof.
  induction entries as [|[tag payload] entries IH];
    intros blocks acc consumed fuel Hall Htags Hnd Htotal Hfuel.
  - apply Forall2_nil_inv_l in Hall as ->. simpl in *.
    destruct fuel; simpl; unfold len in Htotal; simpl in Htotal;
      (replace (consumed =? total) with true
         by (symmetry; apply Z.eqb_eq; lia));
      rewrite app_nil_r; reflexivity.
  - apply Forall2_cons_inv_l in Hall
      as (block & blocks' & (packed & Hp & ->) & Hall & ->).
    apply Forall_cons in Htags as [Ht Htags]. simpl in Ht, Hp.
    pose proof (pack_I_length _ _ Hp) as Hlp.
    pose proof (be_value_pack_I _ _ Hp) as Hv.
    simpl concat in *. rewrite <- !app_assoc in *.
    destruct (block_parts tag packed payload (concat blocks') Ht Hlp)
      as (H1 & H2 & H3).
    assert (Hlen : len (tag ++ packed ++ payload ++ concat blocks')
                   = len payload + 8 + len (concat blocks')).
    { unfold len. rewrite !length_app, Ht, Hlp. lia. }
    assert (Hpos : 0 <= len (concat blocks')) by (unfold len; lia).
    assert (Hpay : 0 <= len payload) by (unfold len; lia).
    destruct fuel as [|fuel].
    { exfalso. rewrite !length_app, Ht in Hfuel. lia. }
    cbn [read_blocks].
    replace (consumed =? total) with false by (symmetry; apply Z.eqb_neq; lia).
    replace (total <? consumed) with false by (symmetry; apply Z.ltb_ge; lia).
    rewrite bool_decide_eq_false_2
      by (destruct tag; [discriminate Ht | discriminate]).
    cbn [orb]. rewrite H1, H2, H3, Hv, Hlen.
    replace (len payload + 8 + len (concat blocks') <? 8) with false
      by (symmetry; apply Z.ltb_ge; lia).
    replace (len payload + 8 <? 8) with false
      by (symmetry; apply Z.ltb_ge; lia).
    replace (len payload + 8 + len (concat blocks') <? len payload + 8)
      with false by (symmetry; apply Z.ltb_ge; lia).
    cbn [orb].
    rewrite bool_decide_eq_false_2.
    2:{ intros Hin. rewrite map_app in Hnd. simpl in Hnd.
        apply NoDup_app in Hnd as (_ & Hdis & _).
        apply (Hdis tag); [exact Hin | constructor]. }
    replace (len payload + 8 - 8) with (len payload) by lia.
    unfold len at 3. rewrite Nat2Z.id, take_app_length.
    replace (Z.to_nat (len payload + 8))
      with (length (tag ++ packed ++ payload))
      by (unfold len; rewrite !length_app, Ht, Hlp; lia).
    rewrite !app_assoc, drop_app_length, <- ?app_assoc.
    rewrite (IH blocks' (acc ++ [(tag, payload)]) (consumed + (len payload + 8))
               fuel Hall Htags).
    + rewrite <- app_assoc. reflexivity.
    + rewrite <- app_assoc. exact Hnd.
    + lia.
    + rewrite !length_app, Ht in Hfuel. lia.
Qed.

Lemma read_container_encoded (entries : list (bytes * bytes))
  (blocks : list bytes) (packed : bytes) :
  Forall2 encodes entries blocks ->
  Forall (fun entry => length (fst entry) = 4%nat) entries ->
  NoDup (map fst entries) ->
  pack_I (sum_len blocks + 8) = Some packed ->
  read_container (b "icns" ++ packed ++ concat blocks) = inr entries.
Proof.
  intros Hall Htags Hnd Hp.
  pose proof (pack_I_length _ _ Hp) as Hlp.
  pose proof (be_value_pack_I _ _ Hp) as Hv.
  destruct (block_parts (b "icns") packed (concat blocks) [] eq_refl Hlp)
    as (H1 & H2 & H3).
  rewrite app_nil_r in H1, H2, H3.
  assert (Hlen : len (b "icns" ++ packed ++ concat blocks)
                 = sum_len blocks + 8).
  { rewrite sum_len_concat. unfold len. rewrite !length_app, Hlp.
    simpl. lia. }
  assert (Hpos : 0 <= sum_len blocks)
    by (rewrite sum_len_concat; unfold len; lia).
  unfold read_container, header_total. rewrite H1, H2, H3, Hv, Hlen.
  rewrite bool_decide_eq_true_2 by reflexivity. cbn [negb].
  replace (sum_len blocks + 8 <? 8) with false
    by (symmetry; apply Z.ltb_ge; lia).
  rewrite Z.ltb_irrefl.
  apply (read_blocks_encoded _ entries blocks []); auto.
  - rewrite sum_len_concat. lia.
  - rewrite !length_app. lia.
Qed.

(** C3. For (tag, payload) pairs with 4-byte tags, no tag twice and no
    empty payload, the encoder and the writer of the script either raise
    [struct.error], which they do exactly when the container would not fit
    a 32-bit length, or leave at the output path a container of the
    expected size that the reader decodes into the same pairs in the same
    order. Neither the list nor a payload needs to be non-empty for
    this. *)
Theorem encode_then_decode (entries : list (bytes * bytes))
  (output_file : string) (w : world) :
  entries <> [] ->
  NoDup (map fst entries) ->
  Forall (fun entry => length (fst entry) = 4%nat) entries ->
  Forall (fun entry => snd entry <> []) entries ->
  fs w !! output_file <> Some Dir ->
  match pack_entries entries output_file w with
  | (w', inr _) =>
      container_size entries < 2 ^ 32 /\
      exists container,
        file_at output_file w' = Some container /\
        len container = container_size entries /\
        read_container container = inr entries
  | (w', inl e) => e = StructError /\ 2 ^ 32 <= container_size entries
  end.
Proof.
  intros _ Hnd Htags _ Hdir. unfold pack_entries, bind.
  destruct (encode_loop_run entries [] w)
    as [(blocks & Hall & ->) | [Hbig ->]]; [|split; [reflexivity | exact Hbig]].
  simpl app. rewrite write_container_run_file by exact Hdir.
  pose proof (encodes_sum_len _ _ Hall Htags) as Hsize.
  destruct (pack_I (sum_len blocks + 8)) as [packed|] eqn:Ep.
  - pose proof (pack_I_Some _ _ Ep) as Hfit. split; [lia|].
    exists (b "icns" ++ packed ++ concat blocks). repeat split.
    + unfold file_at. simpl. rewrite lookup_insert_eq. reflexivity.
    + rewrite <- Hsize, sum_len_concat. unfold len.
      rewrite !length_app, (pack_I_length _ _ Ep). simpl. lia.
    + apply read_container_encoded; assumption.
  - split; [reflexivity|]. apply pack_I_None in Ep.
    pose proof (container_size_ge entries). lia.
Qed.

Lemma encode_then_decode_witness :
  container_size two_entries < 2 ^ 32 /\
  exists container,
    file_at "out.icns" (fst (pack_entries two_entries "out.icns" (init ∅)))
    = Some container /\
    len container = container_size two_entries /\
    read_container container = inr two_entries.
Proof.
  refine (encode_then_decode two_entries "out.icns" (init ∅) _ _ _ _ _).
  - discriminate.
  - apply (bool_decide_unpack _). vm_compute. exact I.
  - repeat constructor.
  - repeat constructor; discriminate.
  - simpl. rewrite lookup_empty. discriminate.
Defined.

(** The reader never runs out of fuel: any fuel that covers the bytes
    left gives the same result. *)
Lemma read_blocks_fuel (total : Z) (fuel1 : nat) :
  forall (fuel2 : nat) (consumed : Z) (rest : bytes)
         (acc : list (bytes * bytes)),
    (length rest <= fuel1)%nat -> (length rest <= fuel2)%nat ->
    read_blocks fuel1 total consumed rest acc
    = read_blocks fuel2 total consumed rest acc.
Proof.
  induction fuel1 as [|fuel1 IH]; intros fuel2 consumed rest acc H1 H2.
  - destruct rest; [|simpl in H1; lia].
    destruct fuel2; simpl; destruct (consumed =? total);
      try reflexivity; rewrite orb_true_r; reflexivity.
  - destruct fuel2 as [|fuel2].
    + destruct rest; [|simpl in H2; lia].
      simpl. destruct (consumed =? total); try reflexivity;
        rewrite orb_true_r; reflexivity.
    + cbn [read_blocks].
      destruct (consumed =? total); [reflexivity|].
      destruct ((total <? consumed) || bool_decide (rest = []));
        [reflexivity|].
      destruct (len rest <? 8) eqn:E8; [reflexivity|].
      destruct ((be_value (take 4 (drop 4 rest)) <? 8)
                || (len rest <? be_value (take 4 (drop 4 rest)))) eqn:El;
        [reflexivity|].
      destruct (bool_decide (take 4 rest ∈ map fst acc)); [reflexivity|].
      apply orb_false_elim in El as [El1 El2].
      apply Z.ltb_ge in E8, El1, El2. unfold len in *.
      apply IH; rewrite length_drop; lia.
Qed.

(** * Further properties *)

(** ** The entry point *)

(** X1. Called with fewer than two arguments, the script prints the usage
    line and exits with status 1 without looking at any file. *)
Theorem main_too_few_arguments (argv : list string) (w : world) :
  (length argv < 3)%nat ->
  main argv w =
  (World (fs w) (stdout w ++ [usage]) (calls w), inl (SystemExit 1)) /\
  exit_code (snd (main argv w)) = 1.
Proof.
  intros Hlen.
  destruct argv as [|prog [|dir [|out rest]]];
    [split; reflexivity .. | simpl in Hlen; lia].
Qed.

Lemma main_too_few_arguments_witness :
  main ["make_icns.py"; "icons"] (init one_icon) =
  (World one_icon ([] ++ [usage]) [], inl (SystemExit 1)) /\
  exit_code (snd (main ["make_icns.py"; "icons"] (init one_icon))) = 1.
Proof.
  apply (main_too_few_arguments ["make_icns.py"; "icons"] (init one_icon)).
  simpl. lia.
Defined.

Lemma for_each_raises {A S} (body : S -> A -> M S) (l : list A) :
  forall (s : S) (w w' : world) (e : exn),
    for_each l body s w = (w', inl e) ->
    exists s0 x w0, In x l /\ snd (body s0 x w0) = inl e.
Proof.
  induction l as [|x l IH]; intros s w w' e; simpl.
  - discriminate.
  - unfold bind. destruct (body s x w) as [w1 [e1|s1]] eqn:Hb.
    + intros [= _ <-]. exists s, x, w. rewrite Hb. auto.
    + intros H. apply IH in H as (s0 & y & w0 & Hin & Hy).
      exists s0, y, w0. auto.
Qed.

(** The loop raises nothing but [struct.error] and [IsADirectoryError]. *)
Lemma collect_blocks_raises (iconset_dir : string) (w w' : world) (e : exn) :
  collect_blocks iconset_dir w = (w', inl e) ->
  e = StructError \/
  exists item, In item types /\
    e = IsADirectoryError (os_path_join iconset_dir (snd item)).
Proof.
  intros H. apply for_each_raises in H as (acc & item & w0 & Hin & He).
  rewrite loop_body_run in He. cbv zeta in He.
  rewrite resolved_path_types in He by exact Hin.
  destruct (fs w0 !! os_path_join iconset_dir (snd item)) as [[img|]|];
    [destruct (pack_I (len img + 8))| |]; simpl in He;
    try discriminate He; injection He as <-; eauto.
Qed.

(** X2. The script exits with status 0 only when it was given a directory
    and an output path, ignoring further arguments, and has left at the
    output path a file that starts with the magic and whose header field
    is the length of the file; its last line of output then names the
    output path. *)
Theorem exit_status_zero_means_written (argv : list string) (w : world) :
  exit_code (snd (main argv w)) = 0 ->
  exists iconset_dir output_file container,
    argv !! 1%nat = Some iconset_dir /\
    argv !! 2%nat = Some output_file /\
    main argv w = create_icns iconset_dir output_file w /\
    snd (main argv w) = inr tt /\
    file_at output_file (fst (main argv w)) = Some container /\
    take 4 container = b "icns" /\
    header_total container = len container /\
    last (stdout (fst (main argv w))) = Some (success output_file).
Proof.
  intros Hexit.
  destruct argv as [|prog [|dir [|out rest]]]; try discriminate Hexit.
  cbn [main] in *.
  destruct (create_icns dir out w) as [w' r] eqn:Hrun.
  destruct r as [[| | |code]|[]]; simpl in Hexit; try discriminate Hexit.
  - exfalso. subst code. rewrite create_icns_run in Hrun.
    destruct (collect_blocks dir w) as [w1 [e|[|block l]]] eqn:Hc.
    + injection Hrun as _ ->.
      apply collect_blocks_raises in Hc as [Hc | (item & _ & Hc)];
        discriminate Hc.
    + discriminate Hrun.
    + rewrite write_container_run in Hrun.
      destruct (fs w1 !! out) as [[c|]|];
        try destruct (pack_I (sum_len (block :: l) + 8));
        discriminate Hrun.
  - pose proof Hrun as Hs. apply create_icns_success in Hs
      as (w1 & data_blocks & packed & Hc & _ & Hp & Hfs & _ & Hout).
    exists dir, out, (b "icns" ++ packed ++ concat data_blocks).
    pose proof (pack_I_length _ _ Hp) as Hlen.
    destruct (block_parts (b "icns") packed (concat data_blocks) []
                eq_refl Hlen) as (H1 & H2 & _).
    rewrite app_nil_r in H1, H2.
    split; [reflexivity|]. split; [reflexivity|].
    split; [symmetry; exact Hrun|]. split; [reflexivity|].
    split; [eapply file_at_insert, Hfs|]. split; [exact H1|].
    cbn [fst]. split.
    + unfold header_total. rewrite H2, (be_value_pack_I _ _ Hp).
      rewrite sum_len_concat. unfold len. rewrite !length_app, Hlen.
      simpl. lia.
    + rewrite Hout. apply last_snoc.
Qed.

Lemma exit_status_zero_means_written_witness :
  exists iconset_dir output_file container,
    ["make_icns.py"; "icons"; "out.icns"; "more"] !! 1%nat
    = Some iconset_dir /\
    ["make_icns.py"; "icons"; "out.icns"; "more"] !! 2%nat
    = Some output_file /\
    main ["make_icns.py"; "icons"; "out.icns"; "more"] (init one_icon)
    = create_icns iconset_dir output_file (init one_icon) /\
    snd (main ["make_icns.py"; "icons"; "out.icns"; "more"] (init one_icon))
    = inr tt /\
    file_at output_file
      (fst (main ["make_icns.py"; "icons"; "out.icns"; "more"]
              (init one_icon)))
    = Some container /\
    take 4 container = b "icns" /\
    header_total container = len container /\
    last (stdout (fst (main ["make_icns.py"; "icons"; "out.icns"; "more"]
                         (init one_icon))))
    = Some (success output_file).
Proof.
  apply (exit_status_zero_means_written
           ["make_icns.py"; "icons"; "out.icns"; "more"] (init one_icon)).
  vm_compute. reflexivity.
Defined.

(** ** Length fields *)

(** X3. [struct.pack('>I', n)] returns exactly when [n] is an unsigned
    32-bit number; the four bytes it returns, read back as a big-endian
    number, give [n]. Otherwise it raises. *)
Theorem pack_I_round_trip (n : Z) :
  match pack_I n with
  | Some packed =>
      0 <= n < 2 ^ 32 /\ length packed = 4%nat /\ be_value packed = n
  | None => n < 0 \/ 2 ^ 32 <= n
  end.
Proof.
  destruct (pack_I n) as [packed|] eqn:E.
  - repeat split; try (apply (pack_I_Some _ _ E)).
    + apply (pack_I_length _ _ E).
    + apply (be_value_pack_I _ _ E).
  - apply pack_I_None, E.
Qed.

(** Two numbers packed into the same four bytes are equal: a length
    field determines the length. *)
Theorem pack_I_injective (n m : Z) (packed : bytes) :
  pack_I n = Some packed -> pack_I m = Some packed -> n = m.
Proof.
  intros Hn Hm. apply be_value_pack_I in Hn, Hm. congruence.
Qed.

Lemma pack_I_injective_witness : 18 = 18.
Proof.
  apply (pack_I_injective 18 18 [x00; x00; x00; x12]); reflexivity.
Defined.

Lemma len_oversize : len oversize = 4294967288.
Proof.
  unfold len, oversize. rewrite repeat_length. apply Z2Nat.id. lia.
Qed.

(** X4. The encoder leaves the world alone. It returns the tag, the
    packed length and the payload, eight bytes longer than the payload
    when the tag has four, if the payload is shorter than 2^32 - 8 bytes;
    for a longer payload it raises [struct.error]. *)
Theorem make_block_or_struct_error (tag img_data : bytes) (w : world) :
  match make_block tag img_data w with
  | (w', inr block) =>
      w' = w /\ len img_data + 8 < 2 ^ 32 /\
      (exists packed, pack_I (len img_data + 8) = Some packed /\
                      block = tag ++ packed ++ img_data) /\
      len block = len tag + 4 + len img_data
  | (w', inl e) => w' = w /\ e = StructError /\ 2 ^ 32 <= len img_data + 8
  end.
Proof.
  unfold make_block, bind, struct_pack_I.
  destruct (pack_I (len img_data + 8)) as [packed|] eqn:E; simpl.
  - repeat split.
    + apply (pack_I_Some _ _ E).
    + exists packed. auto.
    + unfold len. rewrite !length_app, (pack_I_length _ _ E). lia.
  - repeat split. apply pack_I_None in E. unfold len in *. lia.
Qed.

(** A payload of 2^32 - 8 bytes or more cannot be encoded: the
    encoder raises [struct.error] and nothing changes. *)
Theorem make_block_oversize (tag img_data : bytes) (w : world) :
  2 ^ 32 <= len img_data + 8 ->
  make_block tag img_data w = (w, inl StructError).
Proof.
  intros Hbig. unfold make_block, bind, struct_pack_I.
  destruct (pack_I (len img_data + 8)) as [packed|] eqn:E; [|reflexivity].
  apply pack_I_Some in E. lia.
Qed.

Lemma make_block_oversize_witness :
  make_block (b "icp4") oversize (init ∅) = (init ∅, inl StructError).
Proof.
  apply (make_block_oversize (b "icp4") oversize (init ∅)).
  rewrite len_oversize. lia.
Defined.

(** ** Runs that fail *)

(** Blocks that pass the loop test are not the empty list. *)
Lemma create_icns_blocks (iconset_dir output_file : string) (w w1 : world)
  (data_blocks : list bytes) :
  collect_blocks iconset_dir w = (w1, inr data_blocks) ->
  data_blocks <> [] ->
  create_icns iconset_dir output_file w =
  match write_container output_file data_blocks w1 with
  | (w2, inl e) => (w2, inl e)
  | (w2, inr _) =>
      (World (fs w2) (stdout w2 ++ [success output_file]) (calls w2), inr tt)
  end.
Proof.
  intros Hc Hne. rewrite create_icns_run, Hc.
  destruct data_blocks; [contradiction | reflexivity].
Qed.

(** X5. When the loop raises, because a table path is a directory or a
    file is too long for a block, the run ends on that exception before
    the output path is opened: the files are left as they were and only
    [stat] and read calls were issued. *)
Theorem loop_failure_touches_nothing (iconset_dir output_file : string)
  (w w1 : world) (e : exn) :
  collect_blocks iconset_dir w = (w1, inl e) ->
  create_icns iconset_dir output_file w = (w1, inl e) /\
  fs w1 = fs w /\
  (exists cs, calls w1 = calls w ++ cs /\ forallb read_only cs = true) /\
  (e = StructError \/
   exists item, In item types /\
     e = IsADirectoryError (os_path_join iconset_dir (snd item))).
Proof.
  intros Hc. pose proof (collect_blocks_only_read iconset_dir w) as Hro.
  rewrite Hc in Hro. destruct Hro as [Hfs Hcalls].
  rewrite create_icns_run, Hc. repeat split; try assumption.
  eapply collect_blocks_raises, Hc.
Qed.

Lemma loop_failure_touches_nothing_witness :
  create_icns "icons" "out.icns" (init directory_icon)
  = (fst (collect_blocks "icons" (init directory_icon)),
     inl (IsADirectoryError "icons/icon_64x64.png")) /\
  fs (fst (collect_blocks "icons" (init directory_icon))) = directory_icon /\
  (exists cs,
     calls (fst (collect_blocks "icons" (init directory_icon))) = [] ++ cs /\
     forallb read_only cs = true) /\
  (IsADirectoryError "icons/icon_64x64.png" = StructError \/
   exists item, In item types /\
     IsADirectoryError "icons/icon_64x64.png"
     = IsADirectoryError (os_path_join "icons" (snd item))).
Proof.
  apply (loop_failure_touches_nothing "icons" "out.icns"
           (init directory_icon)).
  vm_compute. reflexivity.
Defined.

(** X6. When icons were found but the output path is a directory, the
    run raises [IsADirectoryError] for the output path and leaves the
    files as they were. *)
Theorem output_directory_is_refused (iconset_dir output_file : string)
  (w w1 : world) (data_blocks : list bytes) :
  collect_blocks iconset_dir w = (w1, inr data_blocks) ->
  data_blocks <> [] ->
  fs w !! output_file = Some Dir ->
  create_icns iconset_dir output_file w
  = (log (SysOpenTrunc output_file) w1,
     inl (IsADirectoryError output_file)) /\
  fs (fst (create_icns iconset_dir output_file w)) = fs w.
Proof.
  intros Hc Hne Hdir.
  pose proof (collect_blocks_only_read iconset_dir w) as Hro.
  rewrite Hc in Hro. destruct Hro as [Hfs _]. simpl in Hfs.
  rewrite (create_icns_blocks _ _ _ _ _ Hc Hne), write_container_run.
  rewrite Hfs, Hdir. split; [reflexivity | exact Hfs].
Qed.

Lemma output_directory_is_refused_witness :
  create_icns "icons" "out.icns" (init directory_output)
  = (log (SysOpenTrunc "out.icns")
       (fst (collect_blocks "icons" (init directory_output))),
     inl (IsADirectoryError "out.icns")) /\
  fs (fst (create_icns "icons" "out.icns" (init directory_output)))
  = directory_output.
Proof.
  apply (output_directory_is_refused "icons" "out.icns"
           (init directory_output) _
           [b "icp4" ++ [x00; x00; x00; x12] ++ ten]).
  - vm_compute. reflexivity.
  - discriminate.
  - vm_compute. reflexivity.
Defined.

(** The total length is packed after the output path is opened: when
    the blocks and the header exceed 2^32 - 1 bytes, the writer raises
    [struct.error] having emptied the output file, whatever it held. *)
Theorem oversize_container_empties_output (output_file : string)
  (data_blocks : list bytes) (w : world) :
  fs w !! output_file <> Some Dir ->
  2 ^ 32 <= sum_len data_blocks + 8 ->
  write_container output_file data_blocks w
  = (World (<[output_file := File []]> (fs w)) (stdout w)
           (calls w ++ [SysOpenTrunc output_file]), inl StructError) /\
  file_at output_file (fst (write_container output_file data_blocks w))
  = Some [].
Proof.
  intros Hdir Hbig. rewrite write_container_run_file by exact Hdir.
  destruct (pack_I (sum_len data_blocks + 8)) as [packed|] eqn:E.
  - apply pack_I_Some in E. lia.
  - split; [reflexivity|]. unfold file_at. simpl.
    rewrite lookup_insert_eq. reflexivity.
Qed.

Lemma oversize_container_empties_output_witness :
  write_container "out.icns" [oversize] (init earlier_output)
  = (World (<["out.icns" := File []]> earlier_output) []
           ([] ++ [SysOpenTrunc "out.icns"]), inl StructError) /\
  file_at "out.icns"
    (fst (write_container "out.icns" [oversize] (init earlier_output)))
  = Some [].
Proof.
  apply (oversize_container_empties_output "out.icns" [oversize]
           (init earlier_output)).
  - vm_compute. discriminate.
  - rewrite sum_len_concat. cbn [concat]. rewrite app_nil_r, len_oversize.
    lia.
Defined.

(** ** What a run touches *)

Lemma in_table_paths (iconset_dir : string) (item : bytes * string) :
  In item types -> In (os_path_join iconset_dir (snd item))
                      (table_paths iconset_dir).
Proof.
  intros Hin. unfold table_paths.
  apply (in_map (fun item => os_path_join iconset_dir (snd item))), Hin.
Qed.

Lemma collect_calls_in_bounds (iconset_dir output_file : string)
  (l : list (bytes * string)) :
  (forall item, In item l -> In item types) ->
  forall acc w,
    exists cs,
      calls (fst (for_each l (loop_body iconset_dir) acc w)) = calls w ++ cs /\
      Forall (call_in_bounds iconset_dir output_file) cs /\
      forallb read_only cs = true.
Proof.
  induction l as [|item l IH]; intros Hin acc w; simpl.
  - exists []. rewrite app_nil_r. repeat split. constructor.
  - assert (Hitem : In item types) by (apply Hin; left; reflexivity).
    assert (Hl : forall item', In item' l -> In item' types)
      by (intros; apply Hin; right; assumption).
    pose proof (in_table_paths iconset_dir item Hitem) as Hp.
    unfold bind. rewrite loop_body_run. cbv zeta.
    rewrite resolved_path_types by exact Hitem.
    destruct (fs w !! os_path_join iconset_dir (snd item)) as [[img|]|];
      [destruct (pack_I (len img + 8)) as [packed|]| |].
    + match goal with
      | |- context [for_each l _ ?a ?w1] =>
          destruct (IH Hl a w1) as (cs & Hcs & Hb & Hr)
      end.
      rewrite Hcs. cbn [calls]. eexists. rewrite <- !app_assoc.
      split; [reflexivity|]. split.
      * repeat (apply Forall_cons; split; [exact Hp|]). exact Hb.
      * simpl. exact Hr.
    + cbn [fst calls]. eexists. rewrite <- !app_assoc.
      split; [reflexivity|]. split; [|reflexivity].
      repeat (apply Forall_cons; split; [exact Hp|]). constructor.
    + cbn [fst calls]. eexists. rewrite <- !app_assoc.
      split; [reflexivity|]. split; [|reflexivity].
      repeat (apply Forall_cons; split; [exact Hp|]). constructor.
    + match goal with
      | |- context [for_each l _ ?a ?w1] =>
          destruct (IH Hl a w1) as (cs & Hcs & Hb & Hr)
      end.
      rewrite Hcs. cbn [calls]. eexists. rewrite <- !app_assoc.
      split; [reflexivity|]. split.
      * repeat (apply Forall_cons; split; [exact Hp|]). exact Hb.
      * simpl. exact Hr.
Qed.

Lemma writes_in_bounds (iconset_dir output_file : string)
  (pieces : list bytes) :
  Forall (call_in_bounds iconset_dir output_file)
    (SysOpenTrunc output_file :: map (SysWrite output_file) pieces).
Proof.
  constructor; [reflexivity|]. apply Forall_forall. intros c Hin.
  apply list_elem_of_fmap in Hin as (piece & -> & _). reflexivity.
Qed.

Lemma create_icns_calls (iconset_dir output_file : string) (w : world) :
  exists cs,
    calls (fst (create_icns iconset_dir output_file w)) = calls w ++ cs /\
    Forall (call_in_bounds iconset_dir output_file) cs /\
    fs (fst (create_icns iconset_dir output_file w)) = replay cs (fs w).
Proof.
  rewrite create_icns_run.
  destruct (collect_calls_in_bounds iconset_dir output_file types
              (fun _ Hin => Hin) [] w) as (cs & Hcs & Hb & Hr).
  fold (collect_blocks iconset_dir w) in Hcs.
  pose proof (collect_blocks_only_read iconset_dir w) as [Hfs _].
  destruct (collect_blocks iconset_dir w) as [w1 [e|[|block l]]];
    simpl in Hcs, Hfs.
  - exists cs. cbn [fst]. rewrite (replay_read_only _ _ Hr). auto.
  - exists cs. cbn [fst fs calls]. rewrite (replay_read_only _ _ Hr). auto.
  - rewrite write_container_run.
    destruct (fs w1 !! output_file) as [[content|]|] eqn:E;
      try (destruct (pack_I (sum_len (block :: l) + 8)) as [packed|]);
      cbn [fst fs calls log]; rewrite Hcs, <- ?app_assoc; eexists;
      (split; [reflexivity|]);
      (split; [apply Forall_app; split;
               [exact Hb | apply (writes_in_bounds _ _ [])
                           || apply writes_in_bounds]|]);
      rewrite replay_app, (replay_read_only _ _ Hr), <- Hfs;
      cbn [replay fold_left apply_call]; rewrite ?E; try reflexivity.
    + change (fold_left apply_call
                (map (SysWrite output_file) ((b "icns" ++ packed) :: block :: l)))
        with (replay (map (SysWrite output_file)
                        ((b "icns" ++ packed) :: block :: l))).
      erewrite replay_writes by apply lookup_insert_eq.
      rewrite insert_insert_eq, app_nil_l. cbn [concat].
      rewrite <- app_assoc. reflexivity.
    + change (fold_left apply_call
                (map (SysWrite output_file) ((b "icns" ++ packed) :: block :: l)))
        with (replay (map (SysWrite output_file)
                        ((b "icns" ++ packed) :: block :: l))).
      erewrite replay_writes by apply lookup_insert_eq.
      rewrite insert_insert_eq, app_nil_l. cbn [concat].
      rewrite <- app_assoc. reflexivity.
Qed.

(** X7. Whatever its outcome, a run issues no other calls than [stat]
    and reads of the eleven table paths and the creation and writes of
    the output path, and the files it leaves are the ones these calls
    produce: it looks at no other file of the directory and creates no
    other file. *)
Theorem run_stays_in_bounds (iconset_dir output_file : string) (w : world) :
  exists cs,
    calls (fst (create_icns iconset_dir output_file w)) = calls w ++ cs /\
    Forall (call_in_bounds iconset_dir output_file) cs /\
    fs (fst (create_icns iconset_dir output_file w)) = replay cs (fs w).
Proof. apply create_icns_calls. Qed.





(** ** What a run depends on *)







(** ** The container as a function of the icon files *)


Lemma entries_tag_length (files : gmap string node) (iconset_dir : string)
  (l : list (bytes * string)) :
  (forall item, In item l -> In item types) ->
  Forall (fun entry => length (fst entry) = 4%nat)
    (omap (entry_of files iconset_dir) l).
Proof.
  intros Hin. apply Forall_forall. intros entry He.
  apply list_elem_of_omap in He as (item & Hitem & He).
  rewrite list_elem_of_In in Hitem. unfold entry_of in He.
  destruct (files !! _) as [[img|]|]; try discriminate He.
  injection He as <-. apply types_tag_length, Hin, Hitem.
Qed.

(** The loop returns when no path is a directory and every file fits a
    block. *)
Lemma collect_complete (iconset_dir : string) (l : list (bytes * string)) :
  (forall item, In item l -> In item types) ->
  forall acc w,
    (forall item, In item l ->
       fs w !! os_path_join iconset_dir (snd item) <> Some Dir) ->
    (forall entry, In entry (omap (entry_of (fs w) iconset_dir) l) ->
       len (snd entry) + 8 < 2 ^ 32) ->
    exists w' blocks,
      for_each l (loop_body iconset_dir) acc w = (w', inr (acc ++ blocks)) /\
      Forall2 encodes (omap (entry_of (fs w) iconset_dir) l) blocks.
Proof.
  induction l as [|item l IH]; intros Hin acc w Hdir Hfit.
  - exists w, []. simpl. rewrite app_nil_r. split; [reflexivity | constructor].
  - assert (Hitem : In item types) by (apply Hin; left; reflexivity).
    assert (Hl : forall item', In item' l -> In item' types)
      by (intros; apply Hin; right; assumption).
    pose proof (Hdir item (or_introl eq_refl)) as Hnd.
    cbn [for_each omap list_omap]. unfold bind. rewrite loop_body_run.
    cbv zeta. rewrite resolved_path_types by exact Hitem.
    cbn [omap list_omap] in Hfit. unfold entry_of at 1 in Hfit.
    unfold entry_of at 1.
    destruct (fs w !! os_path_join iconset_dir (snd item))
      as [[img|]|] eqn:E; [|contradiction|].
    + assert (Hsize : len img + 8 < 2 ^ 32)
        by (apply (Hfit (fst item, img)); left; reflexivity).
      destruct (pack_I_fits (len img + 8)) as [packed Hp];
        [unfold len in *; lia|].
      rewrite Hp.
      match goal with
      | |- context [for_each l _ ?a ?w1] =>
          destruct (IH Hl a w1) as (w' & blocks & Hrun & Hall)
      end.
      * exact (fun item' Hin' => Hdir item' (or_intror Hin')).
      * intros entry He. apply Hfit. right. exact He.
      * exists w', ((fst item ++ packed ++ img) :: blocks).
        rewrite Hrun, <- app_assoc. split; [reflexivity|].
        constructor; [exists packed; auto | exact Hall].
    + match goal with
      | |- context [for_each l _ ?a ?w1] =>
          destruct (IH Hl a w1) as (w' & blocks & Hrun & Hall)
      end.
      * exact (fun item' Hin' => Hdir item' (or_intror Hin')).
      * exact Hfit.
      * exists w', blocks. split; [exact Hrun | exact Hall].
Qed.

(** The blocks of a loop that returned encode the entries of the regular
    files, and no path is a directory. *)
Lemma collect_encodes (iconset_dir : string) (files : gmap string node)
  (l : list (bytes * string)) :
  (forall item, In item l -> found_in files iconset_dir item = true ->
                is_Some (block_of files iconset_dir item)) ->
  Forall2 encodes (omap (entry_of files iconset_dir) l)
    (omap (block_of files iconset_dir) l) /\
  (forall item, In item l ->
     files !! os_path_join iconset_dir (snd item) <> Some Dir).
Proof.
  induction l as [|item l IH]; intros Hall.
  - split; [constructor | intros ? []].
  - destruct IH as [IH1 IH2];
      [intros; apply Hall; [right|]; assumption|].
    pose proof (Hall item (or_introl eq_refl)) as Hitem.
    cbn [omap list_omap]. unfold entry_of at 1, block_of at 1.
    unfold block_of in Hitem.
    destruct (files !! os_path_join iconset_dir (snd item))
      as [[img|]|] eqn:E.
    + destruct (pack_I (len img + 8)) as [packed|] eqn:Ep.
      * split; [constructor; [exists packed; auto | exact IH1]|].
        intros item' [<- | Hin']; [congruence | apply IH2, Hin'].
      * destruct (Hitem (found_in_true _ _ _ _ E)) as [? Hx].
        discriminate Hx.
    + destruct (Hitem (found_in_true _ _ _ _ E)) as [? Hx]. discriminate Hx.
    + split; [exact IH1|].
      intros item' [<- | Hin']; [congruence | apply IH2, Hin'].
Qed.

Lemma create_icns_written (iconset_dir output_file : string) (w w' : world) :
  create_icns iconset_dir output_file w = (w', inr tt) ->
  exists packed data_blocks,
    file_at output_file w' = Some (b "icns" ++ packed ++ concat data_blocks) /\
    Forall2 encodes (icon_entries (fs w) iconset_dir) data_blocks /\
    pack_I (container_size (icon_entries (fs w) iconset_dir)) = Some packed /\
    icon_entries (fs w) iconset_dir <> [] /\
    no_directory_icon (fs w) iconset_dir /\
    fs w !! output_file <> Some Dir.
Proof.
  intros Hrun. pose proof Hrun as Hs. apply create_icns_success in Hs
    as (w1 & data_blocks & packed & Hc & Hne & Hp & Hfs & _).
  pose proof (collect_blocks_only_read iconset_dir w) as Hro.
  rewrite Hc in Hro. destruct Hro as [Hfs1 _]. simpl in Hfs1.
  apply collect_blocks_success in Hc as [-> Hall].
  destruct (collect_encodes iconset_dir (fs w) types Hall) as [Henc Hnd].
  fold (icon_entries (fs w) iconset_dir) in Henc.
  exists packed, (omap (block_of (fs w) iconset_dir) types).
  split; [eapply file_at_insert, Hfs|]. split; [exact Henc|].
  split; [|split; [|split; [exact Hnd|]]].
  - rewrite <- (encodes_sum_len _ _ Henc); [exact Hp|].
    apply entries_tag_length. auto.
  - intros Hnil. rewrite Hnil in Henc. apply Forall2_nil_inv_l in Henc.
    contradiction.
  - intros Hd. rewrite create_icns_run in Hrun.
    destruct (collect_blocks iconset_dir w) as [u [e|[|block l]]] eqn:Hc;
      try discriminate Hrun.
    pose proof (collect_blocks_only_read iconset_dir w) as Hro.
    rewrite Hc in Hro. destruct Hro as [Hfsu _]. simpl in Hfsu.
    rewrite write_container_run, Hfsu, Hd in Hrun. discriminate Hrun.
Qed.

(** X11. The container a run writes is the magic, the packed size and,
    in table order, one block for each table path that is a regular
    file: its tag, its packed length and the bytes of the file, unchanged.
    Nothing else is in it, and its length is 8 plus, for each such file,
    8 and the length of the file. *)
Theorem container_is_the_icon_files (iconset_dir output_file : string)
  (w w' : world) :
  create_icns iconset_dir output_file w = (w', inr tt) ->
  exists packed data_blocks,
    file_at output_file w' = Some (b "icns" ++ packed ++ concat data_blocks) /\
    Forall2 encodes (icon_entries (fs w) iconset_dir) data_blocks /\
    pack_I (container_size (icon_entries (fs w) iconset_dir)) = Some packed /\
    len (b "icns" ++ packed ++ concat data_blocks)
    = container_size (icon_entries (fs w) iconset_dir).
Proof.
  intros Hrun.
  destruct (create_icns_written _ _ _ _ Hrun)
    as (packed & data_blocks & H1 & H2 & H3 & _).
  exists packed, data_blocks. repeat split; try assumption.
  rewrite <- (encodes_sum_len _ _ H2) by (apply entries_tag_length; auto).
  rewrite sum_len_concat. unfold len.
  rewrite !length_app, (pack_I_length _ _ H3). simpl. lia.
Qed.

Lemma container_is_the_icon_files_witness :
  exists packed data_blocks,
    file_at "out.icns" (fst (create_icns "icons" "out.icns" (init one_icon)))
    = Some (b "icns" ++ packed ++ concat data_blocks) /\
    Forall2 encodes (icon_entries (fs (init one_icon)) "icons") data_blocks /\
    pack_I (container_size (icon_entries (fs (init one_icon)) "icons"))
    = Some packed /\
    len (b "icns" ++ packed ++ concat data_blocks)
    = container_size (icon_entries (fs (init one_icon)) "icons").
Proof.
  apply (container_is_the_icon_files "icons" "out.icns" (init one_icon)).
  vm_compute. reflexivity.
Defined.




(** ** The lines a run prints *)

Lemma blocks_and_warnings (files : gmap string node) (iconset_dir : string)
  (l : list (bytes * string)) :
  (forall item, In item l -> found_in files iconset_dir item = true ->
                is_Some (block_of files iconset_dir item)) ->
  (length (omap (block_of files iconset_dir) l)
   + length (filter (fun item => negb (found_in files iconset_dir item)) l)
   = length l)%nat.
Proof.
  induction l as [|item l IH]; intros Hall; [reflexivity|].
  cbn [omap list_omap]. rewrite filter_cons.
  specialize (IH (fun item' Hin' => Hall item' (or_intror Hin'))).
  pose proof (Hall item (or_introl eq_refl)) as Hitem.
  destruct (found_in files iconset_dir item) eqn:Hf.
  - destruct (Hitem eq_refl) as [block ->]. simpl. lia.
  - assert (Hb : block_of files iconset_dir item = None).
    { unfold found_in in Hf. apply bool_decide_eq_false_1 in Hf.
      unfold block_of.
      destruct (files !! os_path_join iconset_dir (snd item)) as [n|];
        [exfalso; apply Hf; eauto | reflexivity]. }
    rewrite Hb. simpl. lia.
Qed.

(** X13. A run that returns has printed, after what was printed before,
    one warning for each table entry whose path does not exist, in table
    order, and then the line that names the output path; the warnings
    and the blocks written together account for the eleven entries. *)
Theorem warnings_account_for_missing (iconset_dir output_file : string)
  (w w' : world) :
  create_icns iconset_dir output_file w = (w', inr tt) ->
  exists data_blocks,
    snd (collect_blocks iconset_dir w) = inr data_blocks /\
    stdout w' = stdout w ++
      map warning
        (filter (fun item => negb (found_in (fs w) iconset_dir item)) types)
      ++ [success output_file] /\
    (length data_blocks
     + length (filter (fun item => negb (found_in (fs w) iconset_dir item))
                 types) = 11)%nat.
Proof.
  intros Hrun. apply create_icns_success in Hrun
    as (w1 & data_blocks & packed & Hc & _ & _ & _ & _ & Hout).
  exists data_blocks. rewrite Hc. split; [reflexivity|].
  rewrite Hout, (collect_blocks_warnings _ _ _ _ Hc), <- app_assoc.
  split; [reflexivity|].
  apply collect_blocks_success in Hc as [-> Hall].
  apply (blocks_and_warnings _ _ types Hall).
Qed.

Lemma warnings_account_for_missing_witness :
  exists data_blocks,
    snd (collect_blocks "icons" (init one_icon)) = inr data_blocks /\
    stdout (fst (create_icns "icons" "out.icns" (init one_icon)))
    = stdout (init one_icon) ++
      map warning
        (filter (fun item => negb (found_in (fs (init one_icon)) "icons" item))
           types)
      ++ [success "out.icns"] /\
    (length data_blocks
     + length (filter (fun item =>
                         negb (found_in (fs (init one_icon)) "icons" item))
                 types) = 11)%nat.
Proof.
  apply (warnings_account_for_missing "icons" "out.icns" (init one_icon)).
  vm_compute. reflexivity.
Defined.

(** ** The directory argument *)

Lemma ends_with_sep_slash (s : string) : ends_with_sep (s +:+ "/") = true.
Proof.
  induction s as [|c s IH]; [reflexivity|].
  simpl. destruct (s +:+ "/") eqn:E; [destruct s; discriminate E | exact IH].
Qed.

Lemma append_slash_nonempty (s : string) :
  String.eqb (s +:+ "/") EmptyString = false.
Proof. destruct s; reflexivity. Qed.

Lemma string_app_assoc (s1 s2 s3 : string) :
  (s1 +:+ s2) +:+ s3 = s1 +:+ s2 +:+ s3.
Proof.
  induction s1 as [|c s1 IH]; [reflexivity|].
  change (String c ((s1 +:+ s2) +:+ s3) = String c (s1 +:+ s2 +:+ s3)).
  f_equal. exact IH.
Qed.

Lemma os_path_join_trailing_slash (a p : string) :
  String.eqb a EmptyString = false -> ends_with_sep a = false ->
  os_path_join (a +:+ "/") p = os_path_join a p.
Proof.
  intros Ha Hs. unfold os_path_join.
  destruct (starts_with_sep p); [reflexivity|].
  rewrite append_slash_nonempty, ends_with_sep_slash, Ha, Hs. simpl.
  apply string_app_assoc.
Qed.

Lemma for_each_ext {A S} (body1 body2 : S -> A -> M S) (l : list A) :
  (forall x, In x l -> forall s w, body1 s x w = body2 s x w) ->
  forall s w, for_each l body1 s w = for_each l body2 s w.
Proof.
  induction l as [|x l IH]; intros Hext s w; [reflexivity|].
  simpl. unfold bind. rewrite (Hext x (or_introl eq_refl)).
  destruct (body2 s x w) as [w1 [e|s1]]; [reflexivity|].
  apply IH. intros y Hy. apply Hext. right. exact Hy.
Qed.

(** X14. A slash at the end of the directory argument changes nothing:
    the run on [dir/] is the run on [dir], call for call. *)
Theorem trailing_slash_is_ignored (iconset_dir output_file : string)
  (w : world) :
  String.eqb iconset_dir EmptyString = false ->
  ends_with_sep iconset_dir = false ->
  create_icns (iconset_dir +:+ "/") output_file w
  = create_icns iconset_dir output_file w.
Proof.
  intros Ha Hs. unfold create_icns, bind at 1 5, collect_blocks.
  rewrite (for_each_ext (loop_body (iconset_dir +:+ "/"))
             (loop_body iconset_dir) types); [reflexivity|].
  intros item Hin acc w0. rewrite !loop_body_run. cbv zeta.
  rewrite !resolved_path_types by exact Hin.
  rewrite (os_path_join_trailing_slash _ _ Ha Hs). reflexivity.
Qed.

Lemma trailing_slash_is_ignored_witness :
  create_icns "icons/" "out.icns" (init one_icon)
  = create_icns "icons" "out.icns" (init one_icon).
Proof.
  apply (trailing_slash_is_ignored "icons" "out.icns" (init one_icon));
    reflexivity.
Defined.

(** ** The exceptions of a run *)




(** ** Icons that do not fit together *)

Lemma len_half : len half = 2147483648.
Proof.
  unfold len, half. rewrite repeat_length. apply Z2Nat.id. lia.
Qed.

Lemma create_icns_oversize (iconset_dir output_file : string) (w : world) :
  no_directory_icon (fs w) iconset_dir ->
  (forall entry, In entry (icon_entries (fs w) iconset_dir) ->
     len (snd entry) + 8 < 2 ^ 32) ->
  2 ^ 32 <= container_size (icon_entries (fs w) iconset_dir) ->
  fs w !! output_file <> Some Dir ->
  exists w',
    create_icns iconset_dir output_file w = (w', inl StructError) /\
    fs w' = <[output_file := File []]> (fs w).
Proof.
  intros Hnd Hfit Hbig Hdir.
  destruct (collect_complete iconset_dir types (fun _ Hin => Hin) [] w Hnd
              Hfit) as (w1 & blocks & Hc & Henc).
  fold (collect_blocks iconset_dir w) in Hc.
  fold (icon_entries (fs w) iconset_dir) in Henc. simpl app in Hc.
  pose proof (collect_blocks_only_read iconset_dir w) as Hro.
  rewrite Hc in Hro. destruct Hro as [Hfs1 _]. simpl in Hfs1.
  pose proof (encodes_sum_len _ _ Henc
                (entries_tag_length _ _ types (fun _ Hin => Hin))) as Hsum.
  assert (Hblocks : blocks <> []).
  { intros ->. apply Forall2_nil_inv_r in Henc.
    fold (icon_entries (fs w) iconset_dir) in Hsum.
    rewrite Henc in Hbig. unfold container_size in Hbig. simpl in Hbig. lia. }
  rewrite (create_icns_blocks _ _ _ _ _ Hc Hblocks).
  rewrite write_container_run_file by (rewrite Hfs1; exact Hdir).
  fold (icon_entries (fs w) iconset_dir) in Hsum.
  destruct (pack_I (sum_len blocks + 8)) as [packed|] eqn:Ep.
  - apply pack_I_Some in Ep. lia.
  - eexists. split; [reflexivity|]. simpl. rewrite Hfs1. reflexivity.
Qed.

(** X16. Icon files that each fit a block but together make a container
    of 2^32 bytes or more are found out too late: the run raises
    [struct.error] after it has opened the output path, and leaves the
    output file empty, whatever it held. *)
Theorem oversize_icons_empty_the_output (iconset_dir output_file : string)
  (w : world) :
  no_directory_icon (fs w) iconset_dir ->
  (forall entry, In entry (icon_entries (fs w) iconset_dir) ->
     len (snd entry) + 8 < 2 ^ 32) ->
  2 ^ 32 <= container_size (icon_entries (fs w) iconset_dir) ->
  fs w !! output_file <> Some Dir ->
  exists w',
    create_icns iconset_dir output_file w = (w', inl StructError) /\
    file_at output_file w' = Some [].
Proof.
  intros Hnd Hfit Hbig Hdir.
  destruct (create_icns_oversize _ _ _ Hnd Hfit Hbig Hdir) as (w' & Hrun & Hfs).
  exists w'. split; [exact Hrun | eapply file_at_insert, Hfs].
Qed.

Lemma two_halves_lookup (path : string) :
  two_halves !! path =
  if String.eqb path "icons/icon_16x16.png" then Some (File half)
  else if String.eqb path "icons/icon_32x32.png" then Some (File half)
  else if String.eqb path "out.icns" then Some (File (b "previous"))
  else None.
Proof.
  unfold two_halves.
  destruct (String.eqb_spec path "icons/icon_16x16.png") as [->|H1].
  { apply lookup_insert_eq. }
  rewrite lookup_insert_ne by congruence.
  destruct (String.eqb_spec path "icons/icon_32x32.png") as [->|H2].
  { apply lookup_insert_eq. }
  rewrite lookup_insert_ne by congruence.
  destruct (String.eqb_spec path "out.icns") as [->|H3].
  { apply lookup_singleton_eq. }
  apply lookup_singleton_ne. congruence.
Qed.

Lemma omap_ext_in {A B} (f g : A -> option B) (l : list A) :
  (forall x, In x l -> f x = g x) -> omap f l = omap g l.
Proof.
  induction l as [|x l IH]; intros H; [reflexivity|].
  cbn [omap list_omap]. rewrite (H x (or_introl eq_refl)).
  rewrite IH by (intros; apply H; right; assumption). reflexivity.
Qed.

Lemma icon_entries_two_halves :
  icon_entries two_halves "icons" = [(b "icp4", half); (b "icp5", half)].
Proof.
  unfold icon_entries.
  rewrite (omap_ext_in _
    (fun item =>
       match (if String.eqb (os_path_join "icons" (snd item))
                   "icons/icon_16x16.png" then Some (File half)
              else if String.eqb (os_path_join "icons" (snd item))
                        "icons/icon_32x32.png" then Some (File half)
              else if String.eqb (os_path_join "icons" (snd item)) "out.icns"
                   then Some (File (b "previous"))
              else None) with
       | Some (File img_data) => Some (fst item, img_data)
       | _ => None
       end)).
  - lazy -[half]. reflexivity.
  - intros item _. unfold entry_of. rewrite two_halves_lookup. reflexivity.
Qed.

Lemma oversize_icons_empty_the_output_witness :
  exists w',
    create_icns "icons" "out.icns" (init two_halves) = (w', inl StructError) /\
    file_at "out.icns" w' = Some [].
Proof.
  apply (oversize_icons_empty_the_output "icons" "out.icns" (init two_halves)).
  - intros item Hin. cbn [fs init]. rewrite two_halves_lookup.
    unfold types in Hin. cbn [In] in Hin.
    repeat (destruct Hin as [<- | Hin]; [lazy -[half]; discriminate|]).
    destruct Hin.
  - cbn [fs init]. rewrite icon_entries_two_halves.
    intros entry [<- | [<- | []]]; cbn [snd]; rewrite len_half; lia.
  - cbn [fs init]. rewrite icon_entries_two_halves.
    unfold container_size. cbn [foldr snd]. rewrite len_half. lia.
  - cbn [fs init]. rewrite two_halves_lookup. lazy -[half]. discriminate.
Defined.

(** ** Finding the browser *)

Lemma first_found_spec (which : string -> option string)
  (candidates : list string) :
  match first_found which candidates with
  | Some path =>
      path <> EmptyString /\
      exists before candidate after,
        candidates = before ++ candidate :: after /\
        which candidate = Some path /\
        Forall (fun c => truthy (which c) = false) before
  | None => Forall (fun c => truthy (which c) = false) candidates
  end.
Proof.
  induction candidates as [|c l IH]; simpl; [constructor|].
  destruct (truthy (which c)) eqn:Ht.
  - destruct (which c) as [path|] eqn:Hw; [|discriminate Ht].
    simpl in Ht. split.
    + intros ->. discriminate Ht.
    + exists [], c, l. repeat split; [exact Hw | constructor].
  - destruct (first_found which l) as [path|].
    + destruct IH as (Hne & before & c' & after & -> & Hw & Hb).
      split; [exact Hne|]. exists (c :: before), c', after.
      repeat split; [exact Hw | constructor; assumption].
    + constructor; assumption.
Qed.

(** X17. [find_chromium] returns the path [shutil.which] gives for the
    first of chromium, chromium-browser, google-chrome and
    google-chrome-stable that it resolves, never an empty path, and raises
    [RuntimeError] exactly when it resolves none of the four. *)
Theorem find_chromium_first_candidate (which : string -> option string) :
  match find_chromium which with
  | inr path =>
      path <> EmptyString /\
      exists before candidate after,
        chromium_candidates = before ++ candidate :: after /\
        which candidate = Some path /\
        Forall (fun c => truthy (which c) = false) before
  | inl _ => Forall (fun c => truthy (which c) = false) chromium_candidates
  end.
Proof.
  unfold find_chromium.
  pose proof (first_found_spec which chromium_candidates) as H.
  destruct (first_found which chromium_candidates); exact H.
Qed.
